(* ===================================================================== *)
(* os_keystone_endpoint: the endpoint reconciliation of                   *)
(* cloud/openstack/os_keystone_endpoint.py, embedded and verified.        *)
(*                                                                        *)
(* The module reads its options from module.params, resolves the service  *)
(* through the shade session, looks up the current endpoint, decides      *)
(* whether something changed, and then creates, updates, replaces or      *)
(* deletes the endpoint.  The embedding keeps Python's values (None,      *)
(* booleans, strings), dictionaries as finite maps, attribute access that *)
(* can raise AttributeError, the shade exception caught at the end of     *)
(* main, and the sequence of calls made on the shade session.             *)
(* ===================================================================== *)

From stdpp Require Import gmap strings list fin_maps.

Open Scope string_scope.

(* --------------------------------------------------------------------- *)
(* Python values                                                         *)
(* --------------------------------------------------------------------- *)

(** The values that travel through the module: None, booleans and
    strings (option values, attribute values of shade's objects, ids). *)
Inductive PyVal : Type :=
  | PNone
  | PBool (b : bool)
  | PStr (s : string).

#[global] Instance PyVal_eq_dec : EqDecision PyVal.
Proof. solve_decision. Defined.

(** Python's [a == b] on these values: None equals only None, a boolean
    is never equal to a string (so ["True" == True] is False). *)
Definition py_eq (a b : PyVal) : bool := bool_decide (a = b).

(** Python's [a != b]. *)
Definition py_ne (a b : PyVal) : bool := negb (py_eq a b).

(** Truth value of [if v:]: None, False and the empty string are false. *)
Definition truthy (v : PyVal) : bool :=
  match v with
  | PNone => false
  | PBool b => b
  | PStr s => negb (String.eqb s "")
  end.

(** [v is not None]. *)
Definition is_not_None (v : PyVal) : bool :=
  match v with
  | PNone => false
  | _ => true
  end.

(** [str(v)], also what ['%s' % v] prints. *)
Definition py_str (v : PyVal) : string :=
  match v with
  | PNone => "None"
  | PBool true => "True"
  | PBool false => "False"
  | PStr s => s
  end.

(** A Python dict with string keys; shade's services and endpoints are
    such dicts with attribute access (Munch objects). *)
Abbreviation Dict := (gmap string PyVal).

(** [d.get(k, dflt)]. *)
Definition dict_get (d : Dict) (k : string) (dflt : PyVal) : PyVal :=
  match d !! k with
  | Some v => v
  | None => dflt
  end.

(** [hasattr(o, name)] on a Munch: the key is present. *)
Definition hasattr (o : Dict) (name : string) : bool :=
  match o !! name with
  | Some _ => true
  | None => false
  end.

(* --------------------------------------------------------------------- *)
(* The shade session and the calls made on it                            *)
(* --------------------------------------------------------------------- *)

(** What a call on the session does: it returns, or it raises
    shade.OpenStackCloudException with a message. *)
Inductive Reply (A : Type) : Type :=
  | Returns (a : A)
  | Raises (msg : string).
Arguments Returns {A} a.
Arguments Raises {A} msg.

(** The session object [cloud]: the two searches and the three
    mutations that main and get_endpoint call on it. *)
Record Cloud : Type := {
  search_services : Dict -> Reply (list Dict);
  search_endpoints : Dict -> Reply (list Dict);
  create_endpoint : PyVal -> Dict -> Reply unit;
  update_endpoint : PyVal -> Dict -> Reply unit;
  delete_endpoint : PyVal -> Reply unit
}.

(** One call on the session, with its arguments (filters, positional id,
    keyword arguments). *)
Inductive Call : Type :=
  | Csearch_services (filters : Dict)
  | Csearch_endpoints (filters : Dict)
  | Ccreate_endpoint (service_id : PyVal) (kwargs : Dict)
  | Cupdate_endpoint (endpoint_id : PyVal) (kwargs : Dict)
  | Cdelete_endpoint (endpoint_id : PyVal).

#[global] Instance Call_eq_dec : EqDecision Call.
Proof. solve_decision. Defined.

(** A call that changes the remote state. *)
Definition is_mutation (c : Call) : bool :=
  match c with
  | Csearch_services _ | Csearch_endpoints _ => false
  | Ccreate_endpoint _ _ | Cupdate_endpoint _ _ | Cdelete_endpoint _ => true
  end.

(* --------------------------------------------------------------------- *)
(* Control flow: exit_json, fail_json and exceptions                     *)
(* --------------------------------------------------------------------- *)

(** The exceptions that can travel through main. *)
Inductive PyExn : Type :=
  | OpenStackCloudException (msg : string)
  | AttributeError (attr : string)
  | IndexError.

(** How a block of statements ends: it falls through with a value, the
    module leaves through exit_json or fail_json (both end the process),
    or an exception is on its way up. *)
Inductive Ctl (A : Type) : Type :=
  | Ret (a : A)
  | Exit (changed : bool)
  | Fail (msg : string)
  | Raise (e : PyExn).
Arguments Ret {A} a.
Arguments Exit {A} changed.
Arguments Fail {A} msg.
Arguments Raise {A} e.

(** A computation: the calls it made on the session, in order, and how
    it ended. *)
Definition M (A : Type) : Type := (list Call * Ctl A)%type.

#[global] Instance M_ret : MRet M := fun A a => ([], Ret a).

#[global] Instance M_bind : MBind M := fun A B k m =>
  match m with
  | (t, Ret a) => let '(t', r) := k a in ((t ++ t')%list, r)
  | (t, Exit c) => (t, Exit c)
  | (t, Fail msg) => (t, Fail msg)
  | (t, Raise e) => (t, Raise e)
  end.

(** module.exit_json(changed=c) *)
Definition exit_json {A : Type} (c : bool) : M A := ([], Exit c).

(** module.fail_json(msg=msg) *)
Definition fail_json {A : Type} (msg : string) : M A := ([], Fail msg).

Definition raise {A : Type} (e : PyExn) : M A := ([], Raise e).

(** Issue one call on the session and take its reply. *)
Definition call {A : Type} (c : Call) (r : Reply A) : M A :=
  ([c], match r with
        | Returns a => Ret a
        | Raises msg => Raise (OpenStackCloudException msg)
        end).

(** [o.name]: AttributeError when the object has no such attribute. *)
Definition getattr (o : Dict) (name : string) : M PyVal :=
  match o !! name with
  | Some v => mret v
  | None => raise (AttributeError name)
  end.

(** [x.name] where x may be None (None has none of the attributes). *)
Definition getattr_opt (o : option Dict) (name : string) : M PyVal :=
  match o with
  | Some d => getattr d name
  | None => raise (AttributeError name)
  end.

(** [l[0]] *)
Definition index0 (l : list Dict) : M Dict :=
  match l !! 0 with
  | Some d => mret d
  | None => raise IndexError
  end.

(** How the module ends, as Ansible sees it. *)
Inductive Outcome : Type :=
  | Exited (changed : bool)
  | Failed (msg : string)
  | Uncaught (e : PyExn).

(** The try/except around the body of main:
    [except shade.OpenStackCloudException as e: module.fail_json(msg=str(e))];
    other exceptions are not caught. *)
Definition try_except (body : M Empty_set) : list Call * Outcome :=
  match body with
  | (t, Ret a) => match a with end
  | (t, Exit c) => (t, Exited c)
  | (t, Fail msg) => (t, Failed msg)
  | (t, Raise (OpenStackCloudException msg)) => (t, Failed msg)
  | (t, Raise e) => (t, Uncaught e)
  end.

(* --------------------------------------------------------------------- *)
(* get_endpoint                                                          *)
(* --------------------------------------------------------------------- *)

(** The filters of the two branches of get_endpoint. *)
Definition endpoint_filters (service interface : PyVal) : Dict :=
  if truthy interface
  then <["service_id" := service]> (<["interface" := interface]> ∅)
  else <["service_id" := service]> ∅.

(** get_endpoint(service, interface), lines 160-176. *)
Definition get_endpoint (cloud : Cloud) (service interface : PyVal)
  : M (option Dict) :=
  endpoints_list ←
    (if truthy interface
     then
       let filters := <["service_id" := service]> (<["interface" := interface]> ∅) in
       call (Csearch_endpoints filters) (search_endpoints cloud filters)
     else
       let filters := <["service_id" := service]> ∅ in
       call (Csearch_endpoints filters) (search_endpoints cloud filters));
  if bool_decide (1 < length endpoints_list)
  then fail_json ("Multiple endpoint entries exist service "
                  ++ py_str service ++ ".")
  else
    if bool_decide (length endpoints_list = 1)
    then e ← index0 endpoints_list; mret (Some e)
    else mret None.

(* --------------------------------------------------------------------- *)
(* The comparison of main, lines 245-276                                 *)
(* --------------------------------------------------------------------- *)

(** The test main writes four times, for region, internalurl, adminurl
    and publicurl:
    [hasattr(cur, name) and cur.name != want
       or not hasattr(cur, name) and want is not None]. *)
Definition attr_differs (cur : Dict) (name : string) (want : PyVal) : bool :=
  match cur !! name with
  | Some v => py_ne v want
  | None => is_not_None want
  end.

(** "Check if changes", lines 246-276: the value of [changed] when the
    block is left; [current_endpoint.enabled] and [current_endpoint.url]
    are read without a hasattr guard and can raise. *)
Definition check_changes (current_endpoint : option Dict)
    (url region : PyVal) (enabled : bool)
    (internal_url admin_url public_url : PyVal) : M bool :=
  let changed := false in
  match current_endpoint with
  | None => mret true
  | Some cur =>
      changed ←
        (if truthy url
         then cur_enabled ← getattr cur "enabled";
              if py_ne cur_enabled (PBool enabled) then mret true else mret changed
         else mret changed);
      let changed :=
        if attr_differs cur "region" region then true else changed in
      if truthy url
      then
        cur_url ← getattr cur "url";
        if py_ne cur_url url then mret true else mret changed
      else
        let changed :=
          if attr_differs cur "internalurl" internal_url then true else changed in
        let changed :=
          if attr_differs cur "adminurl" admin_url then true else changed in
        let changed :=
          if attr_differs cur "publicurl" public_url then true else changed in
        mret changed
  end.

(* --------------------------------------------------------------------- *)
(* main                                                                  *)
(* --------------------------------------------------------------------- *)

(** The keyword arguments of both create_endpoint calls:
    interface, url, region, enabled and the three entries of [args]. *)
Definition create_kwargs (interface url region : PyVal) (enabled : bool)
    (args : Dict) : Dict :=
  <["interface" := interface]>
    (<["url" := url]>
       (<["region" := region]>
          (<["enabled" := PBool enabled]> args))).

(** The keyword arguments of update_endpoint: url, interface, region. *)
Definition update_kwargs (url interface region : PyVal) : Dict :=
  <["url" := url]> (<["interface" := interface]> (<["region" := region]> ∅)).

(** The filters of search_services. *)
Definition service_filters (service_name service_type : PyVal) : Dict :=
  <["name" := service_name]> (<["type" := service_type]> ∅).

(** The body of the try block of main, lines 220-325, on the session
    [cloud] that shade.operator_cloud returned, the dictionary
    [module.params] and [module.check_mode]. *)
Definition main_body (cloud : Cloud) (params : Dict) (check_mode : bool)
  : M Empty_set :=
  let service_name := dict_get params "service_name" PNone in
  let service_type := dict_get params "service_type" PNone in
  let interface := dict_get params "interface" PNone in
  let url := dict_get params "url" PNone in
  let region := dict_get params "region" PNone in
  let enabled := py_eq (PStr "True") (dict_get params "enabled" (PBool true)) in
  let state := dict_get params "state" PNone in
  let admin_url := dict_get params "admin_url" PNone in
  let internal_url := dict_get params "internal_url" PNone in
  let public_url := dict_get params "public_url" PNone in
  services_list ←
    call (Csearch_services (service_filters service_name service_type))
         (search_services cloud (service_filters service_name service_type));
  if negb (bool_decide (length services_list = 1))
  then fail_json ("Service " ++ py_str service_name
                  ++ " not found or more than 1 service have this name")
  else
    service ← index0 services_list;
    service_id ← getattr service "id";
    current_endpoint ← get_endpoint cloud service_id interface;
    if bool_decide (current_endpoint = None) && py_eq state (PStr "absent")
    then exit_json false
    else
      changed ← check_changes current_endpoint url region enabled
                  internal_url admin_url public_url;
      if check_mode
      then
        let changed :=
          if changed && py_eq state (PStr "absent") then false else changed in
        exit_json changed
      else
        let args : Dict :=
          <["admin_url" := dict_get params "admin_url" PNone]>
            (<["internal_url" := dict_get params "internal_url" PNone]>
               (<["public_url" := dict_get params "public_url" PNone]> ∅)) in
        if changed
        then
          if py_eq state (PStr "present")
          then
            match current_endpoint with
            | None =>
                _ ← call (Ccreate_endpoint service_id
                            (create_kwargs interface url region enabled args))
                         (create_endpoint cloud service_id
                            (create_kwargs interface url region enabled args));
                exit_json true
            | Some cur =>
                if truthy url
                then
                  endpoint_id ← getattr cur "id";
                  _ ← call (Cupdate_endpoint endpoint_id
                              (update_kwargs url interface region))
                           (update_endpoint cloud endpoint_id
                              (update_kwargs url interface region));
                  exit_json changed
                else
                  endpoint_id ← getattr cur "id";
                  _ ← call (Cdelete_endpoint endpoint_id)
                           (delete_endpoint cloud endpoint_id);
                  _ ← call (Ccreate_endpoint service_id
                              (create_kwargs interface url region enabled args))
                           (create_endpoint cloud service_id
                              (create_kwargs interface url region enabled args));
                  exit_json changed
            end
          else exit_json false
        else
          if py_eq state (PStr "absent")
          then
            endpoint_id ← getattr_opt current_endpoint "id";
            _ ← call (Cdelete_endpoint endpoint_id)
                     (delete_endpoint cloud endpoint_id);
            exit_json true
          else exit_json changed.

(** main, from the session on: the try block (lines 220-325) and its
    except clause (lines 327-328).  What comes before, the shade version
    test of lines 212-214 and the construction of the session on line
    218, makes no call that concerns the endpoint: [cloud] is the session
    that line 218 binds.  The result is the list of calls made on the
    session, in order, and the way the module ended. *)
Definition main (cloud : Cloud) (params : Dict) (check_mode : bool)
  : list Call * Outcome :=
  try_except (main_body cloud params check_mode).

(** The mutation calls of a run. *)
Definition mutations (run : list Call * Outcome) : list Call :=
  filter (fun c => is_mutation c = true) run.1.

(* --------------------------------------------------------------------- *)
(* From the task's arguments to module.params                            *)
(* --------------------------------------------------------------------- *)

(** One entry of argument_spec: [dict(required=..., default=..., choices=...)].
    No entry of this module declares a type. *)
Record ArgSpec : Type := {
  arg_required : bool;
  arg_default : PyVal;
  arg_choices : list string
}.

(** The options main declares, lines 183-194 (the entries that
    openstack_full_argument_spec adds for the session are not read by the
    reconciliation and are left out). *)
Definition argument_spec : list (string * ArgSpec) :=
  [ ("service_name", {| arg_required := true;  arg_default := PNone; arg_choices := [] |});
    ("service_type", {| arg_required := true;  arg_default := PNone; arg_choices := [] |});
    ("interface",    {| arg_required := false; arg_default := PNone; arg_choices := [] |});
    ("url",          {| arg_required := false; arg_default := PNone; arg_choices := [] |});
    ("admin_url",    {| arg_required := false; arg_default := PNone; arg_choices := [] |});
    ("public_url",   {| arg_required := false; arg_default := PNone; arg_choices := [] |});
    ("internal_url", {| arg_required := false; arg_default := PNone; arg_choices := [] |});
    ("region",       {| arg_required := false; arg_default := PNone; arg_choices := [] |});
    ("enabled",      {| arg_required := false; arg_default := PBool true; arg_choices := [] |});
    ("state",        {| arg_required := false; arg_default := PStr "present";
                        arg_choices := ["absent"; "present"] |}) ].

(** AnsibleModule is the host framework's class (ansible.module_utils.basic,
    imported on line 330), not code of this module.  What it does to an
    option before main reads module.params, for the Ansible release this
    module is written for (version_added 2.2): an option the task does not
    supply takes the default of its argument_spec entry (_set_defaults),
    and then the value of an option with no declared type, unless it is
    None, is converted with str() (_check_argument_types takes 'str' as
    the type of such an option; _check_type_str returns a string as it is
    and str(value) otherwise).  This is that conversion. *)
Definition check_type_str (v : PyVal) : PyVal :=
  match v with
  | PNone => PNone
  | PStr s => PStr s
  | PBool b => PStr (py_str (PBool b))
  end.

(** module.params as AnsibleModule builds it from the arguments the task
    supplies (for arguments that pass its validation). *)
Definition AnsibleModule_params (spec : list (string * ArgSpec))
    (supplied : Dict) : Dict :=
  foldr (fun '(k, a) params =>
           let v := match supplied !! k with
                    | Some v => v
                    | None => arg_default a
                    end in
           <[k := check_type_str v]> params)
        ∅ spec.

(** The effective enabled flag of line 225, the value that main compares
    with current_endpoint.enabled and passes to create_endpoint. *)
Definition effective_enabled (params : Dict) : bool :=
  py_eq (PStr "True") (dict_get params "enabled" (PBool true)).

(** The value of [changed] that the comparison computes for the desired
    values main reads from module.params (lines 223-229). *)
Definition computed_changed (current_endpoint : option Dict) (params : Dict)
  : M bool :=
  check_changes current_endpoint
    (dict_get params "url" PNone)
    (dict_get params "region" PNone)
    (effective_enabled params)
    (dict_get params "internal_url" PNone)
    (dict_get params "admin_url" PNone)
    (dict_get params "public_url" PNone).

(** The report of check mode, lines 280-282, from the computed value. *)
Definition check_mode_report (changed : bool) (state : PyVal) : bool :=
  if changed && py_eq state (PStr "absent") then false else changed.

(** The [args] dictionary of lines 284-286. *)
Definition legacy_args (params : Dict) : Dict :=
  <["admin_url" := dict_get params "admin_url" PNone]>
    (<["internal_url" := dict_get params "internal_url" PNone]>
       (<["public_url" := dict_get params "public_url" PNone]> ∅)).

(** The keyword arguments main passes to create_endpoint for
    module.params. *)
Definition desired_create_kwargs (params : Dict) : Dict :=
  create_kwargs (dict_get params "interface" PNone)
    (dict_get params "url" PNone) (dict_get params "region" PNone)
    (effective_enabled params) (legacy_args params).

(** The keyword arguments main passes to update_endpoint for
    module.params. *)
Definition desired_update_kwargs (params : Dict) : Dict :=
  update_kwargs (dict_get params "url" PNone)
    (dict_get params "interface" PNone) (dict_get params "region" PNone).

(** The filters main passes to search_services for module.params. *)
Definition desired_service_filters (params : Dict) : Dict :=
  service_filters (dict_get params "service_name" PNone)
    (dict_get params "service_type" PNone).

(** The message of line 235. *)
Definition service_error (params : Dict) : string :=
  "Service " ++ py_str (dict_get params "service_name" PNone)
  ++ " not found or more than 1 service have this name".

(** The message of line 174. *)
Definition endpoint_error (service : PyVal) : string :=
  "Multiple endpoint entries exist service " ++ py_str service ++ ".".

(** Lines 231-238 on their own: the service id main resolves. *)
Definition resolve_service (cloud : Cloud) (params : Dict) : M PyVal :=
  services_list ←
    call (Csearch_services (desired_service_filters params))
         (search_services cloud (desired_service_filters params));
  if negb (bool_decide (length services_list = 1))
  then fail_json (service_error params)
  else
    service ← index0 services_list;
    getattr service "id".

(** "Do changes", lines 284-325 on their own, for the computed
    [changed]. *)
Definition do_changes (cloud : Cloud) (params : Dict) (service_id : PyVal)
    (current_endpoint : option Dict) (changed : bool) : M Empty_set :=
  if changed
  then
    if py_eq (dict_get params "state" PNone) (PStr "present")
    then
      match current_endpoint with
      | None =>
          _ ← call (Ccreate_endpoint service_id (desired_create_kwargs params))
                   (create_endpoint cloud service_id (desired_create_kwargs params));
          exit_json true
      | Some cur =>
          if truthy (dict_get params "url" PNone)
          then
            endpoint_id ← getattr cur "id";
            _ ← call (Cupdate_endpoint endpoint_id (desired_update_kwargs params))
                     (update_endpoint cloud endpoint_id (desired_update_kwargs params));
            exit_json changed
          else
            endpoint_id ← getattr cur "id";
            _ ← call (Cdelete_endpoint endpoint_id)
                     (delete_endpoint cloud endpoint_id);
            _ ← call (Ccreate_endpoint service_id (desired_create_kwargs params))
                     (create_endpoint cloud service_id (desired_create_kwargs params));
            exit_json changed
      end
    else exit_json false
  else
    if py_eq (dict_get params "state" PNone) (PStr "absent")
    then
      endpoint_id ← getattr_opt current_endpoint "id";
      _ ← call (Cdelete_endpoint endpoint_id)
               (delete_endpoint cloud endpoint_id);
      exit_json true
    else exit_json changed.

(** Lines 242-325 on their own, once service_id and current_endpoint
    are known: the short cut, the comparison, check mode, the changes. *)
Definition main_tail (cloud : Cloud) (params : Dict) (check_mode : bool)
    (service_id : PyVal) (current_endpoint : option Dict) : M Empty_set :=
  if bool_decide (current_endpoint = None)
     && py_eq (dict_get params "state" PNone) (PStr "absent")
  then exit_json false
  else
    changed ← computed_changed current_endpoint params;
    if check_mode
    then exit_json (check_mode_report changed (dict_get params "state" PNone))
    else do_changes cloud params service_id current_endpoint changed.

(* --------------------------------------------------------------------- *)
(* A session double and the tasks of EXAMPLES                            *)
(* --------------------------------------------------------------------- *)

(** An object passes the filters when it has every filtered key with the
    filtered value. *)
Definition dict_matches (filters obj : Dict) : bool :=
  bool_decide (map_Forall (fun k v => obj !! k = Some v) filters).

(** A session over a fixed directory of services and endpoints: the
    searches filter the directory, the mutations reply as given. *)
Definition directory_cloud (services endpoints : list Dict)
    (on_mutation : Reply unit) : Cloud :=
  {| search_services := fun filters =>
       Returns (filter (fun o => dict_matches filters o = true) services);
     search_endpoints := fun filters =>
       Returns (filter (fun o => dict_matches filters o = true) endpoints);
     create_endpoint := fun _ _ => on_mutation;
     update_endpoint := fun _ _ => on_mutation;
     delete_endpoint := fun _ => on_mutation |}.

(** The service "keystone" of type "identity". *)
Definition keystone_service : Dict :=
  <["id" := PStr "s1"]>
    (<["name" := PStr "keystone"]> (<["type" := PStr "identity"]> ∅)).

(** Its internal v3 endpoint. *)
Definition keystone_v3_endpoint : Dict :=
  <["id" := PStr "e1"]>
    (<["service_id" := PStr "s1"]>
       (<["interface" := PStr "internal"]>
          (<["url" := PStr "http://server:5000/v3"]>
             (<["region" := PStr "myregion"]>
                (<["enabled" := PBool true]> ∅))))).

(** Its v2 endpoint, with an admin URL that is not the one wanted below. *)
Definition keystone_v2_endpoint : Dict :=
  <["id" := PStr "e2"]>
    (<["service_id" := PStr "s1"]>
       (<["publicurl" := PStr "http://server:5000/v2.0"]>
          (<["internalurl" := PStr "http://server:5000/v2.0"]>
             (<["adminurl" := PStr "http://old:35357/v2.0"]>
                (<["region" := PStr "myregion"]> ∅))))).

(** The first task of EXAMPLES (lines 95-103). *)
Definition example_v3_task : Dict :=
  <["service_name" := PStr "keystone"]>
    (<["service_type" := PStr "identity"]>
       (<["interface" := PStr "internal"]>
          (<["region" := PStr "myregion"]>
             (<["enabled" := PBool true]>
                (<["url" := PStr "http://server:5000/v3"]>
                   (<["state" := PStr "present"]> ∅)))))).

(** The v2.0 task of EXAMPLES (lines 124-132). *)
Definition example_v2_task : Dict :=
  <["service_name" := PStr "keystone"]>
    (<["service_type" := PStr "identity"]>
       (<["public_url" := PStr "http://server:5000/v2.0"]>
          (<["internal_url" := PStr "http://server:5000/v2.0"]>
             (<["admin_url" := PStr "http://server:35357/v2.0"]>
                (<["region" := PStr "myregion"]>
                   (<["state" := PStr "present"]> ∅)))))).

(* --------------------------------------------------------------------- *)
(* The whole of main, and the shapes of a run                            *)
(* --------------------------------------------------------------------- *)

(** main from its first statement (lines 208-328).  [HAS_SHADE] is the
    flag of lines 18-22, [shade_too_old] the value of
    [StrictVersion(shade.__version__) < StrictVersion('1.11.0')], which is
    only looked at when shade was imported, and [operator_cloud] what
    the call of shade.operator_cloud on module.params (line 218) does: it
    returns the session or raises.  The fail_json of line 214 is outside the try block; the
    session is built inside it. *)
Definition main_from_start (HAS_SHADE shade_too_old : bool)
    (operator_cloud : Dict -> Reply Cloud) (params : Dict)
    (check_mode : bool) : list Call * Outcome :=
  if negb HAS_SHADE || shade_too_old
  then ([], Failed "shade 1.11.0 or higher is required for this module")
  else
    try_except
      (match operator_cloud params with
       | Returns cloud => main_body cloud params check_mode
       | Raises msg => raise (OpenStackCloudException msg)
       end).

(** How a block ends right after a mutation call: the call returned and
    the module reports changed=True, or the call raised. *)
Definition after_mutation (r : Ctl Empty_set) : Prop :=
  r = Exit true \/ exists msg, r = Raise (OpenStackCloudException msg).

(** The ways the part of main from line 242 on can go, for the service id
    [sid] and the options [params]: the calls it makes and how it ends. *)
Inductive tail_shape (params : Dict) (sid : PyVal)
  : bool -> M Empty_set -> Prop :=
  | shape_nothing check_mode :
      tail_shape params sid check_mode ([], Exit false)
  | shape_report changed :
      tail_shape params sid true ([], Exit changed)
  | shape_attribute check_mode attr :
      tail_shape params sid check_mode ([], Raise (AttributeError attr))
  | shape_create r :
      after_mutation r ->
      tail_shape params sid false
        ([Ccreate_endpoint sid (desired_create_kwargs params)], r)
  | shape_update endpoint_id r :
      after_mutation r ->
      tail_shape params sid false
        ([Cupdate_endpoint endpoint_id (desired_update_kwargs params)], r)
  | shape_delete endpoint_id r :
      after_mutation r ->
      tail_shape params sid false ([Cdelete_endpoint endpoint_id], r)
  | shape_replace endpoint_id r :
      after_mutation r ->
      tail_shape params sid false
        ([Cdelete_endpoint endpoint_id;
          Ccreate_endpoint sid (desired_create_kwargs params)], r).

(** The ways a run of main can go: it stops at the service search
    (fail_json, a shade error, or a service without id), at the endpoint
    search (fail_json or a shade error), or it makes both searches and
    goes on from line 242 in one of the ways of [tail_shape]. *)
Inductive run_shape (params : Dict) (check_mode : bool)
  : list Call * Outcome -> Prop :=
  | run_service_failed msg :
      run_shape params check_mode
        ([Csearch_services (desired_service_filters params)], Failed msg)
  | run_service_no_id :
      run_shape params check_mode
        ([Csearch_services (desired_service_filters params)],
         Uncaught (AttributeError "id"))
  | run_endpoint_failed sid msg :
      run_shape params check_mode
        ([Csearch_services (desired_service_filters params);
          Csearch_endpoints
            (endpoint_filters sid (dict_get params "interface" PNone))],
         Failed msg)
  | run_tail sid t r :
      tail_shape params sid check_mode (t, r) ->
      run_shape params check_mode
        (try_except
           (Csearch_services (desired_service_filters params)
            :: Csearch_endpoints
                 (endpoint_filters sid (dict_get params "interface" PNone))
            :: t, r)).

(* ===================================================================== *)
(* Properties                                                            *)
(* ===================================================================== *)

(* --------------------------------------------------------------------- *)
(* Python values and the monad                                           *)
(* --------------------------------------------------------------------- *)

Lemma py_eq_true (a b : PyVal) : py_eq a b = true <-> a = b.
Proof. unfold py_eq. apply bool_decide_eq_true. Qed.

Lemma py_eq_refl (a : PyVal) : py_eq a a = true.
Proof. by apply py_eq_true. Qed.

Lemma py_ne_true (a b : PyVal) : py_ne a b = true <-> a <> b.
Proof.
  unfold py_ne, py_eq. rewrite negb_true_iff. apply bool_decide_eq_false.
Qed.

Lemma py_ne_false (a b : PyVal) : py_ne a b = false <-> a = b.
Proof.
  unfold py_ne. rewrite negb_false_iff. apply py_eq_true.
Qed.

(** The test of lines 253-256 and its three copies, written with hasattr
    as the source has it, is [attr_differs]. *)
Lemma attr_differs_spec (cur : Dict) (name : string) (want : PyVal) :
  attr_differs cur name want
  = (hasattr cur name && py_ne (dict_get cur name PNone) want)
    || (negb (hasattr cur name) && is_not_None want).
Proof.
  unfold attr_differs, hasattr, dict_get.
  destruct (cur !! name) as [v|]; simpl.
  - by rewrite orb_false_r.
  - done.
Qed.

Lemma mbind_mret {A B : Type} (a : A) (k : A -> M B) : (mret a ≫= k) = k a.
Proof.
  unfold mbind, M_bind, mret, M_ret. by destruct (k a).
Qed.

Lemma mbind_call_returns {A B : Type} (c : Call) (a : A) (k : A -> M B) :
  (call c (Returns a) ≫= k) = (c :: (k a).1, (k a).2).
Proof.
  unfold mbind, M_bind, call. by destruct (k a).
Qed.

Lemma mbind_Ret {A B : Type} (t : list Call) (a : A) (k : A -> M B) :
  ((t, Ret a) ≫= k) = ((t ++ (k a).1)%list, (k a).2).
Proof.
  unfold mbind, M_bind. by destruct (k a).
Qed.

Lemma mbind_call_raises {A B : Type} (c : Call) (msg : string) (k : A -> M B) :
  (call c (@Raises A msg) ≫= k) = ([c], Raise (OpenStackCloudException msg)).
Proof. reflexivity. Qed.

Lemma mbind_exit {A B : Type} (c : bool) (k : A -> M B) :
  (exit_json c ≫= k) = exit_json c.
Proof. reflexivity. Qed.

Lemma mbind_fail {A B : Type} (msg : string) (k : A -> M B) :
  (fail_json msg ≫= k) = fail_json msg.
Proof. reflexivity. Qed.

Lemma mbind_raise {A B : Type} (e : PyExn) (k : A -> M B) :
  (raise e ≫= k) = raise e.
Proof. reflexivity. Qed.

Lemma getattr_Some (o : Dict) (name : string) (v : PyVal) :
  o !! name = Some v -> getattr o name = mret v.
Proof. intros H. unfold getattr. by rewrite H. Qed.

Lemma getattr_None (o : Dict) (name : string) :
  o !! name = None -> getattr o name = raise (AttributeError name).
Proof. intros H. unfold getattr. by rewrite H. Qed.

(** One step through a block of the comparison: a bind of a returned
    value, or a case on the next test. *)
Ltac block_step :=
  first
    [ rewrite mbind_mret
    | rewrite mbind_raise
    | match goal with
      | |- context [if ?b then _ else _] => destruct b
      end ];
  cbv zeta.

(** The comparison makes no call on the session. *)
Lemma check_changes_no_call cur url region enabled iu au pu :
  (check_changes cur url region enabled iu au pu).1 = [].
Proof.
  unfold check_changes. destruct cur as [cur|]; [|done].
  unfold getattr.
  destruct (cur !! "enabled") as [e|], (cur !! "url") as [u|];
    repeat block_step; done.
Qed.

Lemma mbind_assoc {A B C : Type} (m : M A) (f : A -> M B) (g : B -> M C) :
  ((m ≫= f) ≫= g) = (m ≫= fun a => f a ≫= g).
Proof.
  destruct m as [t [a| | |]]; try reflexivity.
  unfold mbind, M_bind.
  destruct (f a) as [t1 [b| | |]]; try reflexivity.
  destruct (g b) as [t2 r]. by rewrite app_assoc.
Qed.

(** main's try block is its three parts in sequence: the service
    resolution, get_endpoint, and the rest from line 242 on. *)
Lemma main_body_unfold (cloud : Cloud) (params : Dict) (check_mode : bool) :
  main_body cloud params check_mode
  = (service_id ← resolve_service cloud params;
     current_endpoint ← get_endpoint cloud service_id (dict_get params "interface" PNone);
     main_tail cloud params check_mode service_id current_endpoint).
Proof.
  unfold main_body, resolve_service, desired_service_filters.
  rewrite mbind_assoc.
  destruct (search_services cloud _) as [services_list|msg]; [|reflexivity].
  rewrite !mbind_call_returns. cbv beta.
  destruct (negb (bool_decide (length services_list = 1))); [reflexivity|].
  by rewrite !mbind_assoc.
Qed.

(* --------------------------------------------------------------------- *)
(* The two lookups                                                       *)
(* --------------------------------------------------------------------- *)

Lemma resolve_service_found cloud params svc sid :
  search_services cloud (desired_service_filters params) = Returns [svc] ->
  svc !! "id" = Some sid ->
  resolve_service cloud params
  = ([Csearch_services (desired_service_filters params)], Ret sid).
Proof.
  intros Hs Hid. unfold resolve_service. rewrite Hs, mbind_call_returns.
  cbn [length bool_decide negb]. unfold index0. cbn [lookup list_lookup].
  rewrite mbind_mret, (getattr_Some _ _ _ Hid). reflexivity.
Qed.

Lemma resolve_service_not_one cloud params l :
  search_services cloud (desired_service_filters params) = Returns l ->
  length l <> 1 ->
  resolve_service cloud params
  = ([Csearch_services (desired_service_filters params)],
     Fail (service_error params)).
Proof.
  intros Hs Hl. unfold resolve_service. rewrite Hs, mbind_call_returns.
  by rewrite bool_decide_eq_false_2.
Qed.

Lemma resolve_service_raises cloud params msg :
  search_services cloud (desired_service_filters params) = Raises msg ->
  resolve_service cloud params
  = ([Csearch_services (desired_service_filters params)],
     Raise (OpenStackCloudException msg)).
Proof. intros Hs. unfold resolve_service. by rewrite Hs. Qed.

(** get_endpoint makes one search, with the filters of
    [endpoint_filters]. *)
Lemma get_endpoint_call cloud service interface :
  get_endpoint cloud service interface
  = (endpoints_list ←
       call (Csearch_endpoints (endpoint_filters service interface))
            (search_endpoints cloud (endpoint_filters service interface));
     if bool_decide (1 < length endpoints_list)
     then fail_json (endpoint_error service)
     else if bool_decide (length endpoints_list = 1)
          then e ← index0 endpoints_list; mret (Some e)
          else mret None).
Proof.
  unfold get_endpoint, endpoint_filters. by destruct (truthy interface).
Qed.

Lemma get_endpoint_reply cloud service interface l :
  search_endpoints cloud (endpoint_filters service interface) = Returns l ->
  get_endpoint cloud service interface
  = ([Csearch_endpoints (endpoint_filters service interface)],
     match l with
     | [] => Ret None
     | [e] => Ret (Some e)
     | _ => Fail (endpoint_error service)
     end).
Proof.
  intros Hs. rewrite get_endpoint_call, Hs, mbind_call_returns.
  destruct l as [|e [|e' l]].
  - reflexivity.
  - reflexivity.
  - rewrite bool_decide_eq_true_2; [reflexivity|]. simpl. lia.
Qed.

Lemma get_endpoint_raises cloud service interface msg :
  search_endpoints cloud (endpoint_filters service interface) = Raises msg ->
  get_endpoint cloud service interface
  = ([Csearch_endpoints (endpoint_filters service interface)],
     Raise (OpenStackCloudException msg)).
Proof. intros Hs. by rewrite get_endpoint_call, Hs. Qed.

(** A run whose two lookups succeed: the two searches, then the rest of
    main on the service id and the endpoint found (or None). *)
Lemma main_body_found cloud params check_mode svc sid l cur :
  search_services cloud (desired_service_filters params) = Returns [svc] ->
  svc !! "id" = Some sid ->
  search_endpoints cloud
    (endpoint_filters sid (dict_get params "interface" PNone)) = Returns l ->
  (l = [] /\ cur = None) \/ (exists e, l = [e] /\ cur = Some e) ->
  main_body cloud params check_mode
  = (Csearch_services (desired_service_filters params)
     :: Csearch_endpoints
          (endpoint_filters sid (dict_get params "interface" PNone))
     :: (main_tail cloud params check_mode sid cur).1,
     (main_tail cloud params check_mode sid cur).2).
Proof.
  intros Hs Hid He Hl. rewrite main_body_unfold.
  rewrite (resolve_service_found _ _ _ _ Hs Hid).
  change (?t, Ret ?a) with (call (A:=PyVal) (Csearch_services (desired_service_filters params)) (Returns sid)) at 1.
  rewrite mbind_call_returns.
  rewrite (get_endpoint_reply _ _ _ _ He).
  destruct Hl as [[-> ->]|(e & -> & ->)];
    unfold mbind, M_bind; by destruct (main_tail _ _ _ _ _).
Qed.

Lemma main_found cloud params check_mode svc sid l cur :
  search_services cloud (desired_service_filters params) = Returns [svc] ->
  svc !! "id" = Some sid ->
  search_endpoints cloud
    (endpoint_filters sid (dict_get params "interface" PNone)) = Returns l ->
  (l = [] /\ cur = None) \/ (exists e, l = [e] /\ cur = Some e) ->
  main cloud params check_mode
  = try_except
      (Csearch_services (desired_service_filters params)
       :: Csearch_endpoints
            (endpoint_filters sid (dict_get params "interface" PNone))
       :: (main_tail cloud params check_mode sid cur).1,
       (main_tail cloud params check_mode sid cur).2).
Proof.
  intros Hs Hid He Hl. unfold main.
  by rewrite (main_body_found _ _ _ _ _ _ _ Hs Hid He Hl).
Qed.

(* --------------------------------------------------------------------- *)
(* C7: absent on absent                                                  *)
(* --------------------------------------------------------------------- *)

(** C7. If the endpoint search returns no match and state is "absent",
    the run leaves through exit_json(changed=False) right after the two
    searches: the rest of main is the short cut of lines 242-243, and no
    create, update or delete call is made, in check mode or not. *)
Theorem absent_on_absent (cloud : Cloud) (params : Dict) (check_mode : bool)
    (svc : Dict) (sid : PyVal) :
  dict_get params "state" PNone = PStr "absent" ->
  search_services cloud (desired_service_filters params) = Returns [svc] ->
  svc !! "id" = Some sid ->
  search_endpoints cloud
    (endpoint_filters sid (dict_get params "interface" PNone)) = Returns [] ->
  main_tail cloud params check_mode sid None = exit_json false
  /\ main cloud params check_mode
     = ([Csearch_services (desired_service_filters params);
         Csearch_endpoints
           (endpoint_filters sid (dict_get params "interface" PNone))],
        Exited false)
  /\ mutations (main cloud params check_mode) = [].
Proof.
  intros Hst Hs Hid He.
  assert (Ht : main_tail cloud params check_mode sid None = exit_json false).
  { unfold main_tail. by rewrite Hst. }
  assert (Hm : main cloud params check_mode
     = ([Csearch_services (desired_service_filters params);
         Csearch_endpoints
           (endpoint_filters sid (dict_get params "interface" PNone))],
        Exited false)).
  { rewrite (main_found _ _ _ _ _ _ None Hs Hid He) by (left; done).
    by rewrite Ht. }
  split; [done|]. split; [done|]. by rewrite Hm.
Qed.

Lemma absent_on_absent_witness :
  let cloud := directory_cloud [keystone_service] [] (Returns tt) in
  let params :=
    AnsibleModule_params argument_spec
      (<["state" := PStr "absent"]> example_v3_task) in
  main cloud params false
  = ([Csearch_services (desired_service_filters params);
      Csearch_endpoints (endpoint_filters (PStr "s1") (PStr "internal"))],
     Exited false).
Proof.
  intros cloud params.
  refine (proj1 (proj2 (absent_on_absent cloud params false keystone_service
                          (PStr "s1") _ _ _ _))).
  - vm_compute. reflexivity.
  - vm_compute. reflexivity.
  - vm_compute. reflexivity.
  - vm_compute. reflexivity.
Defined.

(* --------------------------------------------------------------------- *)
(* C8: service resolution                                                *)
(* --------------------------------------------------------------------- *)

Lemma try_except_trace (body : M Empty_set) : (try_except body).1 = body.1.
Proof. by destruct body as [t [[]| | |[]]]. Qed.

(** C8. main searches the services with the filters name and type.  When
    the search returns a list whose length is not 1 (no match, or several)
    the run ends there with fail_json; when it returns one service, the
    service id main goes on with is that service's id: it is the value of
    the resolution and the service_id that the endpoint search filters
    on. *)
Theorem service_resolution (cloud : Cloud) (params : Dict) (check_mode : bool) :
  let filters :=
    service_filters (dict_get params "service_name" PNone)
      (dict_get params "service_type" PNone) in
  (filters !! "name" = Some (dict_get params "service_name" PNone)
   /\ filters !! "type" = Some (dict_get params "service_type" PNone))
  /\ (forall l : list Dict,
        search_services cloud filters = Returns l ->
        length l <> 1 ->
        main cloud params check_mode
        = ([Csearch_services filters], Failed (service_error params)))
  /\ (forall (svc : Dict) (sid : PyVal),
        search_services cloud filters = Returns [svc] ->
        svc !! "id" = Some sid ->
        resolve_service cloud params = ([Csearch_services filters], Ret sid)
        /\ exists rest,
             (main cloud params check_mode).1
             = Csearch_services filters
               :: Csearch_endpoints
                    (endpoint_filters sid (dict_get params "interface" PNone))
               :: rest).
Proof.
  intros filters. split; [|split].
  - subst filters. unfold service_filters. by simplify_map_eq.
  - intros l Hs Hl. unfold main. rewrite main_body_unfold.
    by rewrite (resolve_service_not_one _ _ _ Hs Hl).
  - intros svc sid Hs Hid. split.
    + exact (resolve_service_found _ _ _ _ Hs Hid).
    + unfold main. rewrite try_except_trace, main_body_unfold.
      rewrite (resolve_service_found _ _ _ _ Hs Hid), mbind_Ret.
      rewrite get_endpoint_call.
      destruct (search_endpoints cloud _) as [l|msg].
      * rewrite mbind_assoc, mbind_call_returns. eexists. reflexivity.
      * eexists. reflexivity.
Qed.

Lemma service_resolution_witness :
  let params := AnsibleModule_params argument_spec example_v3_task in
  main (directory_cloud [] [keystone_v3_endpoint] (Returns tt)) params false
  = ([Csearch_services (desired_service_filters params)],
     Failed "Service keystone not found or more than 1 service have this name")
  /\ main (directory_cloud [keystone_service; keystone_service]
             [keystone_v3_endpoint] (Returns tt)) params false
     = ([Csearch_services (desired_service_filters params)],
        Failed "Service keystone not found or more than 1 service have this name")
  /\ resolve_service
       (directory_cloud [keystone_service] [keystone_v3_endpoint] (Returns tt))
       params
     = ([Csearch_services (desired_service_filters params)], Ret (PStr "s1")).
Proof.
  intros params. split; [|split].
  - refine (proj1 (proj2 (service_resolution _ params false)) [] _ _).
    + vm_compute. reflexivity.
    + simpl. lia.
  - refine (proj1 (proj2 (service_resolution _ params false))
              [keystone_service; keystone_service] _ _).
    + vm_compute. reflexivity.
    + simpl. lia.
  - refine (proj1 (proj2 (proj2 (service_resolution _ params false))
                     keystone_service (PStr "s1") _ _)).
    + vm_compute. reflexivity.
    + vm_compute. reflexivity.
Defined.

(* --------------------------------------------------------------------- *)
(* C9: endpoint lookup                                                   *)
(* --------------------------------------------------------------------- *)

Lemma endpoint_filters_lookup (service interface : PyVal) :
  endpoint_filters service interface !! "service_id" = Some service
  /\ endpoint_filters service interface !! "interface"
     = (if truthy interface then Some interface else None)
  /\ dom (endpoint_filters service interface)
     = (if truthy interface
        then {["service_id"; "interface"]}
        else {["service_id"]} : gset string).
Proof.
  unfold endpoint_filters. destruct (truthy interface).
  - split; [by simplify_map_eq|]. split; [by simplify_map_eq|].
    rewrite !dom_insert_L, dom_empty_L. set_solver.
  - split; [by simplify_map_eq|]. split; [by simplify_map_eq|].
    rewrite !dom_insert_L, dom_empty_L. set_solver.
Qed.

Lemma get_endpoint_trace cloud service interface :
  (get_endpoint cloud service interface).1
  = [Csearch_endpoints (endpoint_filters service interface)].
Proof.
  rewrite get_endpoint_call.
  destruct (search_endpoints cloud _) as [l|msg]; [|done].
  rewrite mbind_call_returns.
  destruct l as [|e [|e' l]]; [done|done|].
  rewrite bool_decide_eq_true_2; [done|simpl; lia].
Qed.

(** C9. get_endpoint makes exactly one endpoint search.  Its filters hold
    service_id, and they hold interface exactly when the interface option
    is set (passes [if interface:]); there is no other filter.  When the
    search returns more than one endpoint get_endpoint ends the run with
    fail_json, and so does main; when it returns none, get_endpoint
    returns None and nothing fails; when it returns one, that endpoint is
    returned. *)
Theorem endpoint_lookup (cloud : Cloud) (service interface : PyVal) :
  let filters := endpoint_filters service interface in
  (get_endpoint cloud service interface).1 = [Csearch_endpoints filters]
  /\ filters !! "service_id" = Some service
  /\ (truthy interface = true ->
      filters !! "interface" = Some interface
      /\ dom filters = ({["service_id"; "interface"]} : gset string))
  /\ (truthy interface = false ->
      filters !! "interface" = None
      /\ dom filters = ({["service_id"]} : gset string))
  /\ (forall l : list Dict,
        search_endpoints cloud filters = Returns l ->
        1 < length l ->
        (get_endpoint cloud service interface).2 = Fail (endpoint_error service))
  /\ (search_endpoints cloud filters = Returns [] ->
      (get_endpoint cloud service interface).2 = Ret None)
  /\ (forall e : Dict,
        search_endpoints cloud filters = Returns [e] ->
        (get_endpoint cloud service interface).2 = Ret (Some e))
  /\ (forall (params : Dict) (check_mode : bool) (svc : Dict) (l : list Dict),
        dict_get params "interface" PNone = interface ->
        search_services cloud (desired_service_filters params) = Returns [svc] ->
        svc !! "id" = Some service ->
        search_endpoints cloud filters = Returns l ->
        1 < length l ->
        main cloud params check_mode
        = ([Csearch_services (desired_service_filters params);
            Csearch_endpoints filters],
           Failed (endpoint_error service))).
Proof.
  intros filters.
  destruct (endpoint_filters_lookup service interface) as (Hsid & Hif & Hdom).
  fold filters in Hsid, Hif, Hdom.
  split; [apply get_endpoint_trace|].
  split; [done|].
  split. { intros Ht. by rewrite Ht in Hif, Hdom. }
  split. { intros Ht. by rewrite Ht in Hif, Hdom. }
  split.
  { intros l Hs Hl. rewrite (get_endpoint_reply _ _ _ _ Hs).
    destruct l as [|e [|e' l]]; simpl in Hl; [lia|lia|done]. }
  split. { intros Hs. by rewrite (get_endpoint_reply _ _ _ _ Hs). }
  split. { intros e Hs. by rewrite (get_endpoint_reply _ _ _ _ Hs). }
  intros params check_mode svc l Hi Hs Hid He Hl.
  unfold main. rewrite main_body_unfold.
  rewrite (resolve_service_found _ _ _ _ Hs Hid), mbind_Ret, Hi.
  rewrite (get_endpoint_reply _ _ _ _ He).
  destruct l as [|e [|e' l]]; simpl in Hl; [lia|lia|done].
Qed.

Lemma endpoint_lookup_witness :
  let cloud :=
    directory_cloud [keystone_service]
      [keystone_v3_endpoint; keystone_v2_endpoint] (Returns tt) in
  (get_endpoint cloud (PStr "s1") PNone).2 = Fail (endpoint_error (PStr "s1"))
  /\ (get_endpoint cloud (PStr "s1") (PStr "internal")).2
     = Ret (Some keystone_v3_endpoint)
  /\ (get_endpoint cloud (PStr "s1") (PStr "admin")).2 = Ret None
  /\ endpoint_filters (PStr "s1") (PStr "admin") !! "interface"
     = Some (PStr "admin")
  /\ endpoint_filters (PStr "s1") PNone !! "interface" = None
  /\ main cloud (AnsibleModule_params argument_spec example_v2_task) false
     = ([Csearch_services
           (desired_service_filters
              (AnsibleModule_params argument_spec example_v2_task));
         Csearch_endpoints (endpoint_filters (PStr "s1") PNone)],
        Failed "Multiple endpoint entries exist service s1.").
Proof.
  intros cloud.
  pose proof (endpoint_lookup cloud (PStr "s1") PNone)
    as (_ & _ & _ & Hno & Hmany & _ & _ & Hmain).
  pose proof (endpoint_lookup cloud (PStr "s1") (PStr "internal"))
    as (_ & _ & _ & _ & _ & _ & Hone & _).
  pose proof (endpoint_lookup cloud (PStr "s1") (PStr "admin"))
    as (_ & _ & Hyes & _ & _ & Hzero & _ & _).
  split.
  { apply (Hmany [keystone_v3_endpoint; keystone_v2_endpoint]).
    - vm_compute. reflexivity.
    - simpl. lia. }
  split. { apply Hone. vm_compute. reflexivity. }
  split. { apply Hzero. vm_compute. reflexivity. }
  split. { apply Hyes. reflexivity. }
  split. { apply Hno. reflexivity. }
  apply (Hmain _ false keystone_service
           [keystone_v3_endpoint; keystone_v2_endpoint]).
  - vm_compute. reflexivity.
  - vm_compute. reflexivity.
  - vm_compute. reflexivity.
  - vm_compute. reflexivity.
  - simpl. lia.
Defined.

(* --------------------------------------------------------------------- *)
(* C10: the region is compared in both schemas                           *)
(* --------------------------------------------------------------------- *)

Lemma attr_differs_true (cur : Dict) (name : string) (want : PyVal) :
  attr_differs cur name want = true
  <-> (exists v, cur !! name = Some v /\ v <> want)
      \/ (cur !! name = None /\ want <> PNone).
Proof.
  unfold attr_differs. destruct (cur !! name) as [v|].
  - rewrite py_ne_true. split.
    + intros Hne. left. by exists v.
    + intros [(v' & [= <-] & Hne)|[[=] _]]. done.
  - split.
    + intros Hw. right. split; [done|]. by destruct want.
    + intros [(v' & [=] & _)|[_ Hw]]. by destruct want.
Qed.

(** C10. With an existing current endpoint, a region mismatch (the remote
    object has a region attribute whose value is not the desired region,
    or it has none while the desired region is not None) makes the
    comparison compute changed = True under the v2 schema (url not set),
    and under the v3 schema as well once the enabled and url attributes
    that this branch reads are there. *)
Theorem region_compared_in_both_schemas (cur params : Dict) :
  let region := dict_get params "region" PNone in
  let url := dict_get params "url" PNone in
  (exists v, cur !! "region" = Some v /\ v <> region)
  \/ (cur !! "region" = None /\ region <> PNone) ->
  (truthy url = false ->
   computed_changed (Some cur) params = ([], Ret true))
  /\ (truthy url = true ->
      forall e u : PyVal,
        cur !! "enabled" = Some e ->
        cur !! "url" = Some u ->
        computed_changed (Some cur) params = ([], Ret true)).
Proof.
  intros region url Hmis.
  apply attr_differs_true in Hmis.
  unfold computed_changed, check_changes. fold region url.
  split.
  - intros Hu. rewrite Hu, mbind_mret, Hmis.
    by repeat block_step.
  - intros Hu e u He Hcu. rewrite Hu.
    rewrite (getattr_Some _ _ _ He), (getattr_Some _ _ _ Hcu), Hmis.
    by repeat block_step.
Qed.

Lemma region_compared_in_both_schemas_witness :
  computed_changed (Some keystone_v2_endpoint)
    (AnsibleModule_params argument_spec
       (<["admin_url" := PStr "http://old:35357/v2.0"]>
          (<["region" := PStr "otherregion"]> example_v2_task)))
  = ([], Ret true)
  /\ computed_changed (Some (delete "region" keystone_v2_endpoint))
       (AnsibleModule_params argument_spec
          (<["admin_url" := PStr "http://old:35357/v2.0"]> example_v2_task))
     = ([], Ret true)
  /\ computed_changed (Some keystone_v3_endpoint)
       (AnsibleModule_params argument_spec
          (<["region" := PStr "otherregion"]> example_v3_task))
     = ([], Ret true).
Proof.
  split; [|split].
  - refine (proj1 (region_compared_in_both_schemas _ _ _) _).
    + left. exists (PStr "myregion"). split; [reflexivity|].
      vm_compute. discriminate.
    + reflexivity.
  - refine (proj1 (region_compared_in_both_schemas _ _ _) _).
    + right. split; [reflexivity|]. vm_compute. discriminate.
    + reflexivity.
  - refine (proj2 (region_compared_in_both_schemas _ _ _) _
              (PBool true) (PStr "http://server:5000/v3") _ _).
    + left. exists (PStr "myregion"). split; [reflexivity|].
      vm_compute. discriminate.
    + reflexivity.
    + reflexivity.
    + reflexivity.
Defined.

(* --------------------------------------------------------------------- *)
(* C4: check mode                                                        *)
(* --------------------------------------------------------------------- *)

Lemma mbind_trace {A B : Type} (m : M A) (k : A -> M B) :
  (m ≫= k).1
  = (m.1 ++ match m.2 with
            | Ret a => (k a).1
            | _ => []
            end)%list.
Proof.
  destruct m as [t [a| | |]]; simpl; rewrite ?app_nil_r; try done.
  unfold mbind, M_bind. by destruct (k a).
Qed.

Lemma resolve_service_trace cloud params :
  (resolve_service cloud params).1
  = [Csearch_services (desired_service_filters params)].
Proof.
  unfold resolve_service.
  destruct (search_services cloud _) as [l|msg]; [|done].
  rewrite mbind_call_returns.
  destruct (negb (bool_decide (length l = 1))); [done|].
  unfold index0. destruct (l !! 0) as [svc|]; [|done].
  rewrite mbind_mret. unfold getattr. by destruct (svc !! "id").
Qed.

(** In check mode the rest of main, from line 242 on, makes no call. *)
Lemma main_tail_check_mode_trace cloud params sid cur :
  (main_tail cloud params true sid cur).1 = [].
Proof.
  unfold main_tail.
  destruct (bool_decide (cur = None) && _); [done|].
  rewrite mbind_trace. unfold computed_changed.
  rewrite check_changes_no_call.
  by destruct (check_changes _ _ _ _ _ _ _).2.
Qed.

(** The calls of a check-mode run are searches. *)
Lemma main_check_mode_trace cloud params :
  exists t,
    (main cloud params true).1 = t
    /\ (t = [Csearch_services (desired_service_filters params)]
        \/ exists sid,
             t = [Csearch_services (desired_service_filters params);
                  Csearch_endpoints
                    (endpoint_filters sid (dict_get params "interface" PNone))]).
Proof.
  eexists. split; [reflexivity|].
  unfold main. rewrite try_except_trace, main_body_unfold, mbind_trace.
  rewrite resolve_service_trace.
  destruct (resolve_service cloud params).2 as [sid| | |]; try (by left).
  right. exists sid. rewrite mbind_trace, get_endpoint_trace.
  destruct (get_endpoint cloud sid _).2 as [cur| | |]; try done.
  by rewrite main_tail_check_mode_trace.
Qed.

(** C4. In check mode no create, update or delete call is made, whatever
    the session replies and whatever the comparison computes; and once
    the two lookups have succeeded, the run reports the computed value of
    changed, except that a computed True is reported as False when state
    is "absent". *)
Theorem check_mode_makes_no_change (cloud : Cloud) (params : Dict) :
  mutations (main cloud params true) = []
  /\ forall (svc : Dict) (sid : PyVal) (l : list Dict) (cur : option Dict)
        (computed : bool),
      search_services cloud (desired_service_filters params) = Returns [svc] ->
      svc !! "id" = Some sid ->
      search_endpoints cloud
        (endpoint_filters sid (dict_get params "interface" PNone)) = Returns l ->
      (l = [] /\ cur = None) \/ (exists e, l = [e] /\ cur = Some e) ->
      computed_changed cur params = ([], Ret computed) ->
      main cloud params true
      = ([Csearch_services (desired_service_filters params);
          Csearch_endpoints
            (endpoint_filters sid (dict_get params "interface" PNone))],
         Exited (if computed
                    && py_eq (dict_get params "state" PNone) (PStr "absent")
                 then false
                 else computed)).
Proof.
  split.
  - destruct (main_check_mode_trace cloud params) as (t & Ht & [->|[sid ->]]);
      unfold mutations; by rewrite Ht.
  - intros svc sid l cur computed Hs Hid He Hl Hc.
    rewrite (main_found _ _ _ _ _ _ cur Hs Hid He Hl).
    unfold main_tail, check_mode_report. rewrite Hc.
    destruct (bool_decide (cur = None)) eqn:Hnone.
    + apply bool_decide_eq_true in Hnone. subst cur.
      unfold computed_changed, check_changes in Hc.
      injection Hc as <-.
      by destruct (py_eq (dict_get params "state" PNone) (PStr "absent")).
    + rewrite andb_false_l.
      change (([] : list Call), Ret computed) with (mret (M:=M) computed).
      rewrite mbind_mret. reflexivity.
Qed.

Lemma check_mode_makes_no_change_witness :
  let cloud :=
    directory_cloud [keystone_service] [keystone_v3_endpoint] (Returns tt) in
  let params :=
    AnsibleModule_params argument_spec
      (<["region" := PStr "otherregion"]> example_v3_task) in
  main cloud params true
  = ([Csearch_services (desired_service_filters params);
      Csearch_endpoints (endpoint_filters (PStr "s1") (PStr "internal"))],
     Exited true).
Proof.
  intros cloud params.
  refine (proj2 (check_mode_makes_no_change cloud params) keystone_service
            (PStr "s1") [keystone_v3_endpoint] (Some keystone_v3_endpoint)
            true _ _ _ _ _).
  - vm_compute. reflexivity.
  - vm_compute. reflexivity.
  - vm_compute. reflexivity.
  - right. by exists keystone_v3_endpoint.
  - vm_compute. reflexivity.
Defined.

(* --------------------------------------------------------------------- *)
(* C3: the default of enabled                                            *)
(* --------------------------------------------------------------------- *)

Lemma AnsibleModule_params_enabled (supplied : Dict) :
  AnsibleModule_params argument_spec supplied !! "enabled"
  = Some (check_type_str (match supplied !! "enabled" with
                          | Some v => v
                          | None => PBool true
                          end)).
Proof.
  unfold AnsibleModule_params, argument_spec. cbn [foldr arg_default].
  by rewrite !lookup_insert_ne, lookup_insert_eq by done.
Qed.

(** Line 225 yields True only on the string "True": on a dictionary that
    held the boolean True, or no entry for enabled, it would yield False.
    The flag owes its default to the str() conversion of AnsibleModule. *)
Remark effective_enabled_needs_the_string :
  effective_enabled (<["enabled" := PStr "True"]> ∅) = true
  /\ effective_enabled (<["enabled" := PBool true]> ∅) = false
  /\ effective_enabled ∅ = false.
Proof. by vm_compute. Qed.

(** C3. When the task does not supply enabled, the flag of line 225 is
    True: module.params holds the default of the argument_spec entry as
    the string "True", which the comparison of line 225 accepts.  This is
    the value main compares with current_endpoint.enabled and the value
    of the enabled keyword of create_endpoint. *)
Theorem enabled_defaults_to_true (supplied : Dict) :
  supplied !! "enabled" = None ->
  let params := AnsibleModule_params argument_spec supplied in
  py_eq (PStr "True") (dict_get params "enabled" (PBool true)) = true
  /\ effective_enabled params = true
  /\ desired_create_kwargs params !! "enabled" = Some (PBool true)
  /\ forall cur : option Dict,
       computed_changed cur params
       = check_changes cur (dict_get params "url" PNone)
           (dict_get params "region" PNone) true
           (dict_get params "internal_url" PNone)
           (dict_get params "admin_url" PNone)
           (dict_get params "public_url" PNone).
Proof.
  intros Hnone params.
  assert (He : effective_enabled params = true).
  { unfold effective_enabled, dict_get. subst params.
    by rewrite AnsibleModule_params_enabled, Hnone. }
  split; [exact He|]. split; [exact He|]. split.
  - unfold desired_create_kwargs, create_kwargs. rewrite He.
    by rewrite !lookup_insert_ne, lookup_insert_eq by done.
  - intros cur. unfold computed_changed. by rewrite He.
Qed.

Lemma enabled_defaults_to_true_witness :
  effective_enabled (AnsibleModule_params argument_spec example_v2_task) = true.
Proof.
  refine (proj1 (proj2 (enabled_defaults_to_true example_v2_task _))).
  reflexivity.
Defined.

(* --------------------------------------------------------------------- *)
(* C1: nothing to do                                                     *)
(* --------------------------------------------------------------------- *)

(** With state "present" and nothing changed, the rest of main is
    exit_json(changed=False), in check mode or not. *)
Lemma main_tail_unchanged_present cloud params check_mode sid cur :
  dict_get params "state" PNone = PStr "present" ->
  computed_changed cur params = ([], Ret false) ->
  main_tail cloud params check_mode sid cur = exit_json false.
Proof.
  intros Hst Hc. unfold main_tail. rewrite Hst, Hc.
  rewrite andb_false_r.
  change (([] : list Call), Ret false) with (mret (M:=M) false).
  rewrite mbind_mret. destruct check_mode; [done|].
  unfold do_changes. by rewrite Hst.
Qed.

(** C1. Scenario A: the task of the first example (service keystone of
    type identity, interface internal, url http://server:5000/v3, region
    myregion, enabled True, state present) against a session where the
    service resolves and the endpoint search returns one endpoint with
    the same interface, url, region and enabled True.  The comparison
    computes changed = False and the run reports changed=False after the
    two searches, with no other call. *)
Theorem scenario_A_unchanged (cloud : Cloud) (check_mode : bool)
    (svc ep : Dict) (sid : PyVal) :
  let params := AnsibleModule_params argument_spec example_v3_task in
  search_services cloud
    (service_filters (PStr "keystone") (PStr "identity")) = Returns [svc] ->
  svc !! "id" = Some sid ->
  search_endpoints cloud (endpoint_filters sid (PStr "internal"))
  = Returns [ep] ->
  ep !! "interface" = Some (PStr "internal") ->
  ep !! "url" = Some (PStr "http://server:5000/v3") ->
  ep !! "region" = Some (PStr "myregion") ->
  ep !! "enabled" = Some (PBool true) ->
  computed_changed (Some ep) params = ([], Ret false)
  /\ main cloud params check_mode
     = ([Csearch_services (service_filters (PStr "keystone") (PStr "identity"));
         Csearch_endpoints (endpoint_filters sid (PStr "internal"))],
        Exited false).
Proof.
  intros params Hs Hid He _ Hurl Hregion Henabled.
  assert (Hc : computed_changed (Some ep) params = ([], Ret false)).
  { unfold computed_changed, check_changes.
    change (dict_get params "url" PNone) with (PStr "http://server:5000/v3").
    change (dict_get params "region" PNone) with (PStr "myregion").
    change (effective_enabled params) with true.
    cbn [truthy String.eqb Ascii.eqb Bool.eqb negb].
    rewrite (getattr_Some _ _ _ Henabled), (getattr_Some _ _ _ Hurl).
    unfold attr_differs. rewrite Hregion.
    by vm_compute. }
  split; [exact Hc|].
  rewrite (main_found cloud params check_mode svc sid [ep] (Some ep)).
  - by rewrite main_tail_unchanged_present.
  - exact Hs.
  - exact Hid.
  - exact He.
  - right. by exists ep.
Qed.

Lemma scenario_A_unchanged_witness :
  main (directory_cloud [keystone_service] [keystone_v3_endpoint] (Returns tt))
    (AnsibleModule_params argument_spec example_v3_task) false
  = ([Csearch_services (service_filters (PStr "keystone") (PStr "identity"));
      Csearch_endpoints (endpoint_filters (PStr "s1") (PStr "internal"))],
     Exited false).
Proof.
  refine (proj2 (scenario_A_unchanged _ false keystone_service
                   keystone_v3_endpoint (PStr "s1") _ _ _ _ _ _ _)).
  - vm_compute. reflexivity.
  - vm_compute. reflexivity.
  - vm_compute. reflexivity.
  - vm_compute. reflexivity.
  - vm_compute. reflexivity.
  - vm_compute. reflexivity.
  - vm_compute. reflexivity.
Defined.

(* --------------------------------------------------------------------- *)
(* C2: changed and absent                                                *)
(* --------------------------------------------------------------------- *)

(** C2, as stated, fails: with state "absent" and an existing endpoint the
    comparison does compute changed = True.  The v2.0 removal task of
    EXAMPLES (lines 145-152), run against an endpoint whose admin URL is
    another one, is such a run. *)
Lemma absent_changed_counterexample :
  ~ (forall (cloud : Cloud) (params : Dict) (sid : PyVal) (cur : Dict),
       dict_get params "state" PNone = PStr "absent" ->
       get_endpoint cloud sid (dict_get params "interface" PNone)
       = ([Csearch_endpoints
             (endpoint_filters sid (dict_get params "interface" PNone))],
          Ret (Some cur)) ->
       computed_changed (Some cur) params <> ([], Ret true)).
Proof.
  intros H.
  apply (H (directory_cloud [keystone_service] [keystone_v2_endpoint] (Returns tt))
           (AnsibleModule_params argument_spec
              (<["state" := PStr "absent"]> example_v2_task))
           (PStr "s1") keystone_v2_endpoint).
  - vm_compute. reflexivity.
  - vm_compute. reflexivity.
  - vm_compute. reflexivity.
Qed.

(** C2, amended. With state "absent" and an existing endpoint the
    comparison can compute changed = True (the branch of lines 318-319 is
    reached, see the run below); when it does, the run makes no create,
    update or delete call and reports changed=False, in check mode or
    not. *)
Theorem absent_changed_makes_no_call (cloud : Cloud) (params : Dict)
    (check_mode : bool) (svc cur : Dict) (sid : PyVal) :
  dict_get params "state" PNone = PStr "absent" ->
  search_services cloud (desired_service_filters params) = Returns [svc] ->
  svc !! "id" = Some sid ->
  search_endpoints cloud
    (endpoint_filters sid (dict_get params "interface" PNone))
  = Returns [cur] ->
  computed_changed (Some cur) params = ([], Ret true) ->
  main cloud params check_mode
  = ([Csearch_services (desired_service_filters params);
      Csearch_endpoints
        (endpoint_filters sid (dict_get params "interface" PNone))],
     Exited false)
  /\ mutations (main cloud params check_mode) = [].
Proof.
  intros Hst Hs Hid He Hc.
  assert (Hm : main cloud params check_mode
     = ([Csearch_services (desired_service_filters params);
         Csearch_endpoints
           (endpoint_filters sid (dict_get params "interface" PNone))],
        Exited false)).
  { rewrite (main_found cloud params check_mode svc sid [cur] (Some cur)
               Hs Hid He) by (right; by exists cur).
    unfold main_tail, check_mode_report. rewrite Hc, Hst.
    change (([] : list Call), Ret true) with (mret (M:=M) true).
    rewrite mbind_mret. cbn [bool_decide decide_rel andb].
    rewrite bool_decide_eq_false_2 by done.
    destruct check_mode; [done|].
    unfold do_changes. by rewrite Hst. }
  split; [exact Hm|]. by rewrite Hm.
Qed.

Lemma absent_changed_makes_no_call_witness :
  let cloud :=
    directory_cloud [keystone_service] [keystone_v2_endpoint] (Returns tt) in
  let params :=
    AnsibleModule_params argument_spec
      (<["state" := PStr "absent"]> example_v2_task) in
  computed_changed (Some keystone_v2_endpoint) params = ([], Ret true)
  /\ main cloud params false
     = ([Csearch_services (desired_service_filters params);
         Csearch_endpoints (endpoint_filters (PStr "s1") PNone)],
        Exited false).
Proof.
  intros cloud params.
  split; [vm_compute; reflexivity|].
  refine (proj1 (absent_changed_makes_no_call cloud params false
                   keystone_service keystone_v2_endpoint (PStr "s1")
                   _ _ _ _ _)).
  - vm_compute. reflexivity.
  - vm_compute. reflexivity.
  - vm_compute. reflexivity.
  - vm_compute. reflexivity.
  - vm_compute. reflexivity.
Defined.

(* --------------------------------------------------------------------- *)
(* C5: v2, delete and recreate                                           *)
(* --------------------------------------------------------------------- *)

(** With state "present", something changed and an existing endpoint,
    outside check mode, the rest of main is the branch of lines
    299-317. *)
Lemma main_tail_changed_present cloud params sid cur :
  dict_get params "state" PNone = PStr "present" ->
  computed_changed (Some cur) params = ([], Ret true) ->
  main_tail cloud params false sid (Some cur)
  = (if truthy (dict_get params "url" PNone)
     then
       endpoint_id ← getattr cur "id";
       _ ← call (Cupdate_endpoint endpoint_id (desired_update_kwargs params))
                (update_endpoint cloud endpoint_id (desired_update_kwargs params));
       exit_json true
     else
       endpoint_id ← getattr cur "id";
       _ ← call (Cdelete_endpoint endpoint_id)
                (delete_endpoint cloud endpoint_id);
       _ ← call (Ccreate_endpoint sid (desired_create_kwargs params))
                (create_endpoint cloud sid (desired_create_kwargs params));
       exit_json true).
Proof.
  intros Hst Hc. unfold main_tail. rewrite Hst, Hc.
  rewrite andb_false_r.
  change (([] : list Call), Ret true) with (mret (M:=M) true).
  rewrite mbind_mret. unfold do_changes. by rewrite Hst.
Qed.

(** In the v2 schema a differing admin URL makes the comparison compute
    changed = True. *)
Lemma computed_changed_adminurl (cur params : Dict) :
  truthy (dict_get params "url" PNone) = false ->
  attr_differs cur "adminurl" (dict_get params "admin_url" PNone) = true ->
  computed_changed (Some cur) params = ([], Ret true).
Proof.
  intros Hu Ha. unfold computed_changed, check_changes.
  rewrite Hu, mbind_mret, Ha. by repeat block_step.
Qed.

(** C5, as stated, fails: in check mode the run of the v2.0 task of
    EXAMPLES against an endpoint with another admin URL makes no delete
    and no create call. *)
Lemma v2_replace_counterexample :
  ~ (forall (cloud : Cloud) (params : Dict) (check_mode : bool)
       (svc cur : Dict) (sid eid : PyVal),
       truthy (dict_get params "url" PNone) = false ->
       dict_get params "state" PNone = PStr "present" ->
       search_services cloud (desired_service_filters params) = Returns [svc] ->
       svc !! "id" = Some sid ->
       search_endpoints cloud
         (endpoint_filters sid (dict_get params "interface" PNone))
       = Returns [cur] ->
       cur !! "id" = Some eid ->
       (exists v, cur !! "adminurl" = Some v
                  /\ v <> dict_get params "admin_url" PNone)
       \/ (cur !! "adminurl" = None
           /\ dict_get params "admin_url" PNone <> PNone) ->
       exists service_id kwargs,
         mutations (main cloud params check_mode)
         = [Cdelete_endpoint eid; Ccreate_endpoint service_id kwargs]).
Proof.
  intros H.
  destruct (H (directory_cloud [keystone_service] [keystone_v2_endpoint] (Returns tt))
              (AnsibleModule_params argument_spec example_v2_task) true
              keystone_service keystone_v2_endpoint (PStr "s1") (PStr "e2"))
    as (service_id & kwargs & Hm).
  - vm_compute. reflexivity.
  - vm_compute. reflexivity.
  - vm_compute. reflexivity.
  - vm_compute. reflexivity.
  - vm_compute. reflexivity.
  - vm_compute. reflexivity.
  - left. exists (PStr "http://old:35357/v2.0"). split.
    + vm_compute. reflexivity.
    + vm_compute. discriminate.
  - vm_compute in Hm. discriminate Hm.
Qed.

(** C5, amended. Outside check mode, when url is not set, state is
    "present" and the endpoint search returns one endpoint whose admin URL
    differs from the desired one (another value, or no adminurl attribute
    while admin_url is not None), the run makes, after the two searches,
    one delete_endpoint call on that endpoint's id, then, when that call
    returns, one create_endpoint call for the resolved service with the
    desired values, and no update_endpoint call.  It reports changed=True
    when both calls return and fails with the message of the call that
    raised otherwise. *)
Theorem v2_replace (cloud : Cloud) (params : Dict)
    (svc cur : Dict) (sid eid : PyVal) :
  truthy (dict_get params "url" PNone) = false ->
  dict_get params "state" PNone = PStr "present" ->
  search_services cloud (desired_service_filters params) = Returns [svc] ->
  svc !! "id" = Some sid ->
  search_endpoints cloud
    (endpoint_filters sid (dict_get params "interface" PNone))
  = Returns [cur] ->
  cur !! "id" = Some eid ->
  (exists v, cur !! "adminurl" = Some v
             /\ v <> dict_get params "admin_url" PNone)
  \/ (cur !! "adminurl" = None /\ dict_get params "admin_url" PNone <> PNone) ->
  main cloud params false
  = match delete_endpoint cloud eid with
    | Returns _ =>
        ([Csearch_services (desired_service_filters params);
          Csearch_endpoints
            (endpoint_filters sid (dict_get params "interface" PNone));
          Cdelete_endpoint eid;
          Ccreate_endpoint sid (desired_create_kwargs params)],
         match create_endpoint cloud sid (desired_create_kwargs params) with
         | Returns _ => Exited true
         | Raises msg => Failed msg
         end)
    | Raises msg =>
        ([Csearch_services (desired_service_filters params);
          Csearch_endpoints
            (endpoint_filters sid (dict_get params "interface" PNone));
          Cdelete_endpoint eid],
         Failed msg)
    end.
Proof.
  intros Hu Hst Hs Hid He Heid Hdiff.
  apply attr_differs_true in Hdiff.
  rewrite (main_found cloud params false svc sid [cur] (Some cur) Hs Hid He)
    by (right; by exists cur).
  rewrite (main_tail_changed_present _ _ _ _ Hst
             (computed_changed_adminurl _ _ Hu Hdiff)).
  rewrite Hu, (getattr_Some _ _ _ Heid), mbind_mret.
  destruct (delete_endpoint cloud eid) as [[]|msg]; [|reflexivity].
  rewrite mbind_call_returns.
  by destruct (create_endpoint cloud sid _) as [[]|msg].
Qed.

Lemma v2_replace_witness :
  let params := AnsibleModule_params argument_spec example_v2_task in
  mutations
    (main (directory_cloud [keystone_service] [keystone_v2_endpoint] (Returns tt))
       params false)
  = [Cdelete_endpoint (PStr "e2");
     Ccreate_endpoint (PStr "s1") (desired_create_kwargs params)]
  /\ mutations
       (main (directory_cloud [keystone_service] [keystone_v2_endpoint]
                (Raises "Conflict"))
          params false)
     = [Cdelete_endpoint (PStr "e2")].
Proof.
  intros params. split.
  - rewrite (v2_replace _ params keystone_service keystone_v2_endpoint
               (PStr "s1") (PStr "e2")).
    + reflexivity.
    + vm_compute. reflexivity.
    + vm_compute. reflexivity.
    + vm_compute. reflexivity.
    + vm_compute. reflexivity.
    + vm_compute. reflexivity.
    + vm_compute. reflexivity.
    + left. exists (PStr "http://old:35357/v2.0"). split.
      * vm_compute. reflexivity.
      * vm_compute. discriminate.
  - rewrite (v2_replace _ params keystone_service keystone_v2_endpoint
               (PStr "s1") (PStr "e2")).
    + reflexivity.
    + vm_compute. reflexivity.
    + vm_compute. reflexivity.
    + vm_compute. reflexivity.
    + vm_compute. reflexivity.
    + vm_compute. reflexivity.
    + vm_compute. reflexivity.
    + left. exists (PStr "http://old:35357/v2.0"). split.
      * vm_compute. reflexivity.
      * vm_compute. discriminate.
Defined.

(* --------------------------------------------------------------------- *)
(* C6: v3, update in place                                               *)
(* --------------------------------------------------------------------- *)

(** In the v3 schema, with the enabled and url attributes equal to the
    desired values, a differing region makes the comparison compute
    changed = True. *)
Lemma computed_changed_region_only (cur params : Dict) :
  truthy (dict_get params "url" PNone) = true ->
  cur !! "enabled" = Some (PBool (effective_enabled params)) ->
  cur !! "url" = Some (dict_get params "url" PNone) ->
  attr_differs cur "region" (dict_get params "region" PNone) = true ->
  computed_changed (Some cur) params = ([], Ret true).
Proof.
  intros Hu He Hcu Hr. unfold computed_changed, check_changes.
  rewrite Hu, (getattr_Some _ _ _ He), (getattr_Some _ _ _ Hcu), Hr.
  by repeat block_step.
Qed.

(** C6, as stated, fails: in check mode the run of the first task of
    EXAMPLES with another region, against the endpoint of scenario A,
    makes no update call. *)
Lemma v3_update_counterexample :
  ~ (forall (cloud : Cloud) (params : Dict) (check_mode : bool)
       (svc cur : Dict) (sid eid : PyVal),
       truthy (dict_get params "url" PNone) = true ->
       dict_get params "state" PNone = PStr "present" ->
       search_services cloud (desired_service_filters params) = Returns [svc] ->
       svc !! "id" = Some sid ->
       search_endpoints cloud
         (endpoint_filters sid (dict_get params "interface" PNone))
       = Returns [cur] ->
       cur !! "id" = Some eid ->
       cur !! "enabled" = Some (PBool (effective_enabled params)) ->
       cur !! "url" = Some (dict_get params "url" PNone) ->
       (exists v, cur !! "region" = Some v
                  /\ v <> dict_get params "region" PNone)
       \/ (cur !! "region" = None /\ dict_get params "region" PNone <> PNone) ->
       mutations (main cloud params check_mode)
       = [Cupdate_endpoint eid
            (update_kwargs (dict_get params "url" PNone)
               (dict_get params "interface" PNone)
               (dict_get params "region" PNone))]).
Proof.
  intros H.
  pose proof (H (directory_cloud [keystone_service] [keystone_v3_endpoint] (Returns tt))
                (AnsibleModule_params argument_spec
                   (<["region" := PStr "otherregion"]> example_v3_task))
                true keystone_service keystone_v3_endpoint
                (PStr "s1") (PStr "e1")) as Hm.
  assert (Hrun : mutations
            (main (directory_cloud [keystone_service] [keystone_v3_endpoint] (Returns tt))
               (AnsibleModule_params argument_spec
                  (<["region" := PStr "otherregion"]> example_v3_task))
               true) = []) by (vm_compute; reflexivity).
  rewrite Hrun in Hm.
  discriminate Hm.
  - vm_compute. reflexivity.
  - vm_compute. reflexivity.
  - vm_compute. reflexivity.
  - vm_compute. reflexivity.
  - vm_compute. reflexivity.
  - vm_compute. reflexivity.
  - vm_compute. reflexivity.
  - vm_compute. reflexivity.
  - left. exists (PStr "myregion"). split.
    + vm_compute. reflexivity.
    + vm_compute. discriminate.
Qed.

(** C6, amended. Outside check mode, when url is set, state is "present"
    and the endpoint search returns one endpoint whose enabled and url
    attributes equal the desired values and whose region differs (another
    value, or no region attribute while region is not None), the run
    makes, after the two searches, exactly one update_endpoint call, on
    that endpoint's id, with the desired url, interface and region as its
    only keyword arguments, and no delete or create call.  It reports
    changed=True when the call returns. *)
Theorem v3_update (cloud : Cloud) (params : Dict)
    (svc cur : Dict) (sid eid : PyVal) :
  truthy (dict_get params "url" PNone) = true ->
  dict_get params "state" PNone = PStr "present" ->
  search_services cloud (desired_service_filters params) = Returns [svc] ->
  svc !! "id" = Some sid ->
  search_endpoints cloud
    (endpoint_filters sid (dict_get params "interface" PNone))
  = Returns [cur] ->
  cur !! "id" = Some eid ->
  cur !! "enabled" = Some (PBool (effective_enabled params)) ->
  cur !! "url" = Some (dict_get params "url" PNone) ->
  (exists v, cur !! "region" = Some v /\ v <> dict_get params "region" PNone)
  \/ (cur !! "region" = None /\ dict_get params "region" PNone <> PNone) ->
  let kwargs :=
    update_kwargs (dict_get params "url" PNone)
      (dict_get params "interface" PNone) (dict_get params "region" PNone) in
  main cloud params false
  = ([Csearch_services (desired_service_filters params);
      Csearch_endpoints
        (endpoint_filters sid (dict_get params "interface" PNone));
      Cupdate_endpoint eid kwargs],
     match update_endpoint cloud eid kwargs with
     | Returns _ => Exited true
     | Raises msg => Failed msg
     end)
  /\ mutations (main cloud params false) = [Cupdate_endpoint eid kwargs]
  /\ kwargs !! "url" = Some (dict_get params "url" PNone)
  /\ kwargs !! "interface" = Some (dict_get params "interface" PNone)
  /\ kwargs !! "region" = Some (dict_get params "region" PNone)
  /\ dom kwargs = ({["url"; "interface"; "region"]} : gset string).
Proof.
  intros Hu Hst Hs Hid He Heid Hen Hcu Hdiff kwargs.
  apply attr_differs_true in Hdiff.
  assert (Hm : main cloud params false
    = ([Csearch_services (desired_service_filters params);
        Csearch_endpoints
          (endpoint_filters sid (dict_get params "interface" PNone));
        Cupdate_endpoint eid kwargs],
       match update_endpoint cloud eid kwargs with
       | Returns _ => Exited true
       | Raises msg => Failed msg
       end)).
  { rewrite (main_found cloud params false svc sid [cur] (Some cur) Hs Hid He)
      by (right; by exists cur).
    rewrite (main_tail_changed_present _ _ _ _ Hst
               (computed_changed_region_only _ _ Hu Hen Hcu Hdiff)).
    rewrite Hu, (getattr_Some _ _ _ Heid), mbind_mret.
    unfold desired_update_kwargs. fold kwargs.
    by destruct (update_endpoint cloud eid kwargs) as [[]|msg]. }
  split; [exact Hm|]. split; [by rewrite Hm|].
  subst kwargs. unfold update_kwargs.
  split; [by simplify_map_eq|]. split; [by simplify_map_eq|].
  split; [by simplify_map_eq|].
  rewrite !dom_insert_L, dom_empty_L. set_solver.
Qed.

Lemma v3_update_witness :
  let params :=
    AnsibleModule_params argument_spec
      (<["region" := PStr "otherregion"]> example_v3_task) in
  mutations
    (main (directory_cloud [keystone_service] [keystone_v3_endpoint] (Returns tt))
       params false)
  = [Cupdate_endpoint (PStr "e1")
       (update_kwargs (PStr "http://server:5000/v3") (PStr "internal")
          (PStr "otherregion"))].
Proof.
  intros params.
  refine (proj1 (proj2 (v3_update _ params keystone_service keystone_v3_endpoint
                          (PStr "s1") (PStr "e1") _ _ _ _ _ _ _ _ _))).
  - vm_compute. reflexivity.
  - vm_compute. reflexivity.
  - vm_compute. reflexivity.
  - vm_compute. reflexivity.
  - vm_compute. reflexivity.
  - vm_compute. reflexivity.
  - vm_compute. reflexivity.
  - vm_compute. reflexivity.
  - left. exists (PStr "myregion"). split.
    + vm_compute. reflexivity.
    + vm_compute. discriminate.
Defined.

(* ===================================================================== *)
(* Further properties of main and get_endpoint                           *)
(* ===================================================================== *)

(* --------------------------------------------------------------------- *)
(* The shapes of a run                                                   *)
(* --------------------------------------------------------------------- *)

Lemma after_mutation_exit : after_mutation (Exit true).
Proof. by left. Qed.

Lemma after_mutation_raise msg :
  after_mutation (Raise (OpenStackCloudException msg)).
Proof. right. by exists msg. Qed.

(** The comparison ends with a value or with an AttributeError. *)
Lemma check_changes_result cur url region enabled iu au pu :
  (exists c, check_changes cur url region enabled iu au pu = ([], Ret c))
  \/ (exists attr,
        check_changes cur url region enabled iu au pu
        = ([], Raise (AttributeError attr))).
Proof.
  unfold check_changes. destruct cur as [cur|]; [|left; by eexists].
  unfold getattr.
  destruct (cur !! "enabled") as [e|], (cur !! "url") as [u|];
    repeat block_step;
    first [ left; eexists; reflexivity | right; eexists; reflexivity ].
Qed.

(** "Do changes" goes one of the listed ways. *)
Lemma do_changes_shape cloud params sid cur changed :
  tail_shape params sid false (do_changes cloud params sid cur changed).
Proof.
  unfold do_changes. destruct changed.
  - destruct (py_eq _ (PStr "present")); [|constructor].
    destruct cur as [cur|].
    + unfold getattr.
      destruct (truthy _), (cur !! "id") as [eid|];
        rewrite ?mbind_mret, ?mbind_raise; try constructor.
      * destruct (update_endpoint cloud eid _) as [[]|msg].
        -- rewrite mbind_call_returns.
           apply shape_update, after_mutation_exit.
        -- apply shape_update, after_mutation_raise.
      * destruct (delete_endpoint cloud eid) as [[]|msg].
        -- rewrite mbind_call_returns.
           destruct (create_endpoint cloud sid _) as [[]|msg].
           ++ apply shape_replace, after_mutation_exit.
           ++ apply shape_replace, after_mutation_raise.
        -- apply shape_delete, after_mutation_raise.
    + destruct (create_endpoint cloud sid _) as [[]|msg].
      * apply shape_create, after_mutation_exit.
      * apply shape_create, after_mutation_raise.
  - destruct (py_eq _ (PStr "absent")); [|constructor].
    unfold getattr_opt, getattr. destruct cur as [cur|]; [|constructor].
    destruct (cur !! "id") as [eid|];
      rewrite ?mbind_mret, ?mbind_raise; [|constructor].
    destruct (delete_endpoint cloud eid) as [[]|msg].
    + apply shape_delete, after_mutation_exit.
    + apply shape_delete, after_mutation_raise.
Qed.

(** The part of main from line 242 on goes one of the listed ways. *)
Lemma main_tail_shape cloud params check_mode sid cur :
  tail_shape params sid check_mode (main_tail cloud params check_mode sid cur).
Proof.
  unfold main_tail.
  destruct (bool_decide (cur = None) && _); [constructor|].
  unfold computed_changed.
  destruct (check_changes_result cur (dict_get params "url" PNone)
              (dict_get params "region" PNone) (effective_enabled params)
              (dict_get params "internal_url" PNone)
              (dict_get params "admin_url" PNone)
              (dict_get params "public_url" PNone)) as [[c ->]|[attr ->]].
  - change (([] : list Call), Ret c) with (mret (M:=M) c).
    rewrite mbind_mret. destruct check_mode; [constructor|].
    apply do_changes_shape.
  - constructor.
Qed.

(** The service resolution makes one search and ends with the id, with
    fail_json, with the shade error, or with the AttributeError of a
    service without id; the index [0] is never out of range. *)
Lemma resolve_service_result cloud params :
  exists r,
    resolve_service cloud params
    = ([Csearch_services (desired_service_filters params)], r)
    /\ ((exists sid, r = Ret sid)
        \/ r = Fail (service_error params)
        \/ (exists msg, r = Raise (OpenStackCloudException msg))
        \/ r = Raise (AttributeError "id")).
Proof.
  unfold resolve_service.
  destruct (search_services cloud _) as [l|msg].
  - rewrite mbind_call_returns.
    destruct (bool_decide (length l = 1)) eqn:Hl; cbn [negb].
    + apply bool_decide_eq_true in Hl.
      destruct l as [|svc [|svc' l]]; try discriminate Hl.
      unfold index0. cbn [lookup list_lookup]. rewrite mbind_mret.
      unfold getattr. destruct (svc !! "id") as [sid|]; eexists; split;
        try reflexivity; [left; by eexists | by do 3 right].
    + eexists. split; [reflexivity|]. right. by left.
  - eexists. split; [reflexivity|]. do 2 right. left. by eexists.
Qed.

(** get_endpoint makes one search and ends with None, with the one
    endpoint found, with fail_json or with the shade error; the index [0]
    is never out of range. *)
Lemma get_endpoint_result cloud service interface :
  exists r,
    get_endpoint cloud service interface
    = ([Csearch_endpoints (endpoint_filters service interface)], r)
    /\ ((exists cur, r = Ret cur)
        \/ r = Fail (endpoint_error service)
        \/ (exists msg, r = Raise (OpenStackCloudException msg))).
Proof.
  destruct (search_endpoints cloud (endpoint_filters service interface))
    as [l|msg] eqn:Hs.
  - rewrite (get_endpoint_reply _ _ _ _ Hs).
    destruct l as [|e [|e' l]]; eexists; split; try reflexivity.
    + left. by eexists.
    + left. by eexists.
    + right. by left.
  - rewrite (get_endpoint_raises _ _ _ _ Hs).
    eexists. split; [reflexivity|]. right. right. by eexists.
Qed.

(** Every run of main goes one of the ways of [run_shape]. *)
Lemma main_run_shape cloud params check_mode :
  run_shape params check_mode (main cloud params check_mode).
Proof.
  unfold main. rewrite main_body_unfold.
  destruct (resolve_service_result cloud params)
    as (r & -> & [[sid ->]|[->|[[msg ->]| ->]]]); try by constructor.
  rewrite mbind_Ret.
  destruct (get_endpoint_result cloud sid (dict_get params "interface" PNone))
    as (r & -> & [[cur ->]|[->|[msg ->]]]); try by constructor.
  rewrite mbind_Ret.
  pose proof (main_tail_shape cloud params check_mode sid cur) as Ht.
  destruct (main_tail cloud params check_mode sid cur) as [t r].
  by apply run_tail.
Qed.

Lemma mutations_nil (o : Outcome) : mutations ([], o) = [].
Proof. reflexivity. Qed.

Lemma mutations_cons_search (c : Call) (t : list Call) (o : Outcome) :
  is_mutation c = false -> mutations (c :: t, o) = mutations (t, o).
Proof.
  intros Hc. unfold mutations. cbn [fst].
  rewrite filter_cons_False; [done|]. by rewrite Hc.
Qed.

Lemma mutations_cons_mutation (c : Call) (t : list Call) (o : Outcome) :
  is_mutation c = true -> mutations (c :: t, o) = c :: mutations (t, o).
Proof.
  intros Hc. unfold mutations. cbn [fst].
  by rewrite filter_cons_True.
Qed.

(** Case analysis on the way a run of main went. *)
Ltac run_cases cloud params check_mode :=
  let H := fresh "Hshape" in
  let Ht := fresh "Htail" in
  pose proof (main_run_shape cloud params check_mode) as H;
  destruct H as [msg| |sid msg|sid t r Ht];
  [ | | | inversion Ht; subst;
          repeat match goal with
                 | Hm : after_mutation _ |- _ => destruct Hm as [->|[? ->]]
                 end ];
  cbn [try_except fst snd] in *.

(** X1. The calls of a run, whatever the session replies: the service
    search first; then, if the service resolved, the endpoint search for
    that service; then nothing, or one create, or one update, or one
    delete, or one delete followed by one create.  No other sequence of
    calls is made, and nothing is changed before both searches are
    done. *)
Theorem run_calls (cloud : Cloud) (params : Dict) (check_mode : bool) :
  let ss := Csearch_services (desired_service_filters params) in
  let calls := (main cloud params check_mode).1 in
  calls = [ss]
  \/ exists (sid : PyVal) (t : list Call),
       calls
       = ss :: Csearch_endpoints
                 (endpoint_filters sid (dict_get params "interface" PNone))
            :: t
       /\ (t = []
           \/ t = [Ccreate_endpoint sid (desired_create_kwargs params)]
           \/ (exists eid,
                 t = [Cupdate_endpoint eid (desired_update_kwargs params)])
           \/ (exists eid, t = [Cdelete_endpoint eid])
           \/ (exists eid,
                 t = [Cdelete_endpoint eid;
                      Ccreate_endpoint sid (desired_create_kwargs params)])).
Proof.
  intros ss calls. subst ss calls.
  run_cases cloud params check_mode;
    first
      [ by left
      | right; exists sid; eexists; rewrite ?try_except_trace;
        split; [reflexivity|];
        first
          [ by left
          | right; by left
          | right; right; left; by eexists
          | right; right; right; left; by eexists
          | right; right; right; right; by eexists ] ].
Qed.

(** X2. Outside check mode the report is true to the calls: when the run
    ends with exit_json, changed is True exactly when a create, update or
    delete call was made. *)
Theorem changed_report_is_honest (cloud : Cloud) (params : Dict) (c : bool) :
  (main cloud params false).2 = Exited c ->
  (c = true <-> mutations (main cloud params false) <> []).
Proof.
  run_cases cloud params false; intros Hc; try discriminate Hc;
    injection Hc as <-;
    repeat first
      [ rewrite mutations_cons_search by reflexivity
      | rewrite mutations_cons_mutation by reflexivity ];
    rewrite ?mutations_nil; split; intros H; try done.
Qed.

Lemma changed_report_is_honest_witness :
  mutations
    (main (directory_cloud [keystone_service] [keystone_v3_endpoint] (Returns tt))
       (AnsibleModule_params argument_spec
          (<["state" := PStr "absent"]> example_v3_task))
       false)
  <> [].
Proof.
  refine (proj1 (changed_report_is_honest _ _ true _) eq_refl).
  vm_compute. reflexivity.
Defined.

(* --------------------------------------------------------------------- *)
(* Errors                                                                *)
(* --------------------------------------------------------------------- *)



(** X4. A shade error raised by one of the two searches ends the run with
    fail_json carrying the message of the error, right after that search:
    no create, update or delete call is made. *)
Theorem search_error_is_reported (cloud : Cloud) (params : Dict)
    (check_mode : bool) (msg : string) :
  (search_services cloud (desired_service_filters params) = Raises msg ->
   main cloud params check_mode
   = ([Csearch_services (desired_service_filters params)], Failed msg))
  /\ (forall (svc : Dict) (sid : PyVal),
        search_services cloud (desired_service_filters params) = Returns [svc] ->
        svc !! "id" = Some sid ->
        search_endpoints cloud
          (endpoint_filters sid (dict_get params "interface" PNone))
        = Raises msg ->
        main cloud params check_mode
        = ([Csearch_services (desired_service_filters params);
            Csearch_endpoints
              (endpoint_filters sid (dict_get params "interface" PNone))],
           Failed msg)).
Proof.
  split.
  - intros Hs. unfold main. rewrite main_body_unfold.
    by rewrite (resolve_service_raises _ _ _ Hs).
  - intros svc sid Hs Hid He. unfold main. rewrite main_body_unfold.
    rewrite (resolve_service_found _ _ _ _ Hs Hid), mbind_Ret.
    by rewrite (get_endpoint_raises _ _ _ _ He).
Qed.

Lemma search_error_is_reported_witness :
  let cloud :=
    {| search_services := fun _ => Raises "Unauthorized";
       search_endpoints := fun _ => Returns [];
       create_endpoint := fun _ _ => Returns tt;
       update_endpoint := fun _ _ => Returns tt;
       delete_endpoint := fun _ => Returns tt |} in
  let params := AnsibleModule_params argument_spec example_v3_task in
  main cloud params false
  = ([Csearch_services (desired_service_filters params)], Failed "Unauthorized").
Proof.
  intros cloud params.
  refine (proj1 (search_error_is_reported cloud params false "Unauthorized") _).
  reflexivity.
Defined.

(** X5. The start of main: when shade is missing or older than 1.11.0 the
    module fails with the message of line 214 before any session exists;
    when the session cannot be built the shade error is reported by
    fail_json; in both cases no call is made.  Otherwise the run is the
    run of the rest of main on the session.  So the properties of [main]
    that hold for every session hold for the whole of main: in
    particular no change is made in check mode. *)
Theorem main_from_start_cases (HAS_SHADE shade_too_old : bool)
    (operator_cloud : Dict -> Reply Cloud) (params : Dict) (check_mode : bool) :
  let run :=
    main_from_start HAS_SHADE shade_too_old operator_cloud params check_mode in
  (HAS_SHADE = false \/ shade_too_old = true ->
   run = ([], Failed "shade 1.11.0 or higher is required for this module"))
  /\ (forall msg,
        HAS_SHADE = true -> shade_too_old = false ->
        operator_cloud params = Raises msg ->
        run = ([], Failed msg))
  /\ (forall cloud,
        HAS_SHADE = true -> shade_too_old = false ->
        operator_cloud params = Returns cloud ->
        run = main cloud params check_mode)
  /\ (check_mode = true -> mutations run = []).
Proof.
  intros run. subst run. unfold main_from_start.
  split; [|split; [|split]].
  - intros [-> | ->]; [done|]. by rewrite orb_true_r.
  - intros msg -> -> ->. reflexivity.
  - intros cloud -> -> ->. reflexivity.
  - intros ->. destruct (negb HAS_SHADE || shade_too_old); [done|].
    destruct (operator_cloud params) as [cloud|msg]; [|done].
    fold (main cloud params true).
    destruct (main_check_mode_trace cloud params) as (t & Ht & [->|[sid ->]]);
      unfold mutations; by rewrite Ht.
Qed.

Lemma main_from_start_cases_witness :
  main_from_start false false (fun _ => Raises "no cloud")
    (AnsibleModule_params argument_spec example_v3_task) false
  = ([], Failed "shade 1.11.0 or higher is required for this module")
  /\ main_from_start true false (fun _ => Raises "no cloud")
       (AnsibleModule_params argument_spec example_v3_task) false
     = ([], Failed "no cloud").
Proof.
  split.
  - refine (proj1 (main_from_start_cases false false _ _ false) _). by left.
  - refine (proj1 (proj2 (main_from_start_cases true false _ _ false))
              "no cloud" _ _ _); reflexivity.
Defined.

(* --------------------------------------------------------------------- *)
(* Creation, removal, and runs that have nothing to do                   *)
(* --------------------------------------------------------------------- *)

Lemma desired_create_kwargs_lookup (params : Dict) :
  let kwargs := desired_create_kwargs params in
  kwargs !! "interface" = Some (dict_get params "interface" PNone)
  /\ kwargs !! "url" = Some (dict_get params "url" PNone)
  /\ kwargs !! "region" = Some (dict_get params "region" PNone)
  /\ kwargs !! "enabled" = Some (PBool (effective_enabled params))
  /\ kwargs !! "public_url" = Some (dict_get params "public_url" PNone)
  /\ kwargs !! "internal_url" = Some (dict_get params "internal_url" PNone)
  /\ kwargs !! "admin_url" = Some (dict_get params "admin_url" PNone)
  /\ dom kwargs
     = ({["interface"; "url"; "region"; "enabled";
          "public_url"; "internal_url"; "admin_url"]} : gset string).
Proof.
  cbv zeta. unfold desired_create_kwargs, create_kwargs, legacy_args.
  do 7 (split; [by simplify_map_eq|]).
  rewrite !dom_insert_L, dom_empty_L. set_solver.
Qed.

(** X6. Creation: with state "present" and no endpoint found, a run
    outside check mode makes, after the two searches, exactly one
    create_endpoint call for the resolved service id; it reports
    changed=True when the call returns and fails with the error's message
    when it raises.  In check mode the run reports changed=True without
    the call.  The call always carries the seven keywords interface, url,
    region, enabled, public_url, internal_url and admin_url: an option the
    task left out is passed as None, and enabled is the boolean flag of
    line 225. *)
Theorem create_when_missing (cloud : Cloud) (params : Dict)
    (svc : Dict) (sid : PyVal) :
  dict_get params "state" PNone = PStr "present" ->
  search_services cloud (desired_service_filters params) = Returns [svc] ->
  svc !! "id" = Some sid ->
  search_endpoints cloud
    (endpoint_filters sid (dict_get params "interface" PNone)) = Returns [] ->
  let kwargs := desired_create_kwargs params in
  main cloud params false
  = ([Csearch_services (desired_service_filters params);
      Csearch_endpoints
        (endpoint_filters sid (dict_get params "interface" PNone));
      Ccreate_endpoint sid kwargs],
     match create_endpoint cloud sid kwargs with
     | Returns _ => Exited true
     | Raises msg => Failed msg
     end)
  /\ main cloud params true
     = ([Csearch_services (desired_service_filters params);
         Csearch_endpoints
           (endpoint_filters sid (dict_get params "interface" PNone))],
        Exited true)
  /\ kwargs !! "interface" = Some (dict_get params "interface" PNone)
  /\ kwargs !! "url" = Some (dict_get params "url" PNone)
  /\ kwargs !! "region" = Some (dict_get params "region" PNone)
  /\ kwargs !! "enabled" = Some (PBool (effective_enabled params))
  /\ kwargs !! "public_url" = Some (dict_get params "public_url" PNone)
  /\ kwargs !! "internal_url" = Some (dict_get params "internal_url" PNone)
  /\ kwargs !! "admin_url" = Some (dict_get params "admin_url" PNone)
  /\ dom kwargs
     = ({["interface"; "url"; "region"; "enabled";
          "public_url"; "internal_url"; "admin_url"]} : gset string).
Proof.
  intros Hst Hs Hid He kwargs.
  split; [|split; [|apply desired_create_kwargs_lookup]].
  - rewrite (main_found cloud params false svc sid [] None Hs Hid He)
      by (left; done).
    unfold main_tail, computed_changed, check_changes, do_changes.
    rewrite Hst. rewrite andb_false_r, mbind_mret.
    cbn [py_eq bool_decide]. rewrite py_eq_refl. fold kwargs.
    by destruct (create_endpoint cloud sid kwargs) as [[]|msg].
  - rewrite (main_found cloud params true svc sid [] None Hs Hid He)
      by (left; done).
    unfold main_tail, computed_changed, check_changes, check_mode_report.
    rewrite Hst. by rewrite andb_false_r, mbind_mret.
Qed.

Lemma create_when_missing_witness :
  let params := AnsibleModule_params argument_spec example_v2_task in
  mutations
    (main (directory_cloud [keystone_service] [] (Returns tt)) params false)
  = [Ccreate_endpoint (PStr "s1") (desired_create_kwargs params)]
  /\ desired_create_kwargs params !! "url" = Some PNone
  /\ desired_create_kwargs params !! "admin_url"
     = Some (PStr "http://server:35357/v2.0")
  /\ desired_create_kwargs params !! "enabled" = Some (PBool true).
Proof.
  intros params.
  pose proof (create_when_missing
                (directory_cloud [keystone_service] [] (Returns tt)) params
                keystone_service (PStr "s1")) as H.
  destruct H as (Hrun & _ & _ & Hurl & _ & Hen & _ & _ & Hadm & _).
  - vm_compute. reflexivity.
  - vm_compute. reflexivity.
  - vm_compute. reflexivity.
  - vm_compute. reflexivity.
  - split; [by rewrite Hrun|]. split; [exact Hurl|]. split; [exact Hadm|].
    exact Hen.
Defined.

(** X7. Removal: with state "absent" and one endpoint found that the
    comparison finds unchanged, a run outside check mode makes, after the
    two searches, exactly one delete_endpoint call on that endpoint's id
    and reports changed=True when the call returns (it fails with the
    error's message otherwise).  The same run in check mode reports
    changed=False: check mode does not announce the removal. *)
Theorem delete_when_unchanged (cloud : Cloud) (params : Dict)
    (svc cur : Dict) (sid eid : PyVal) :
  dict_get params "state" PNone = PStr "absent" ->
  search_services cloud (desired_service_filters params) = Returns [svc] ->
  svc !! "id" = Some sid ->
  search_endpoints cloud
    (endpoint_filters sid (dict_get params "interface" PNone))
  = Returns [cur] ->
  cur !! "id" = Some eid ->
  computed_changed (Some cur) params = ([], Ret false) ->
  main cloud params false
  = ([Csearch_services (desired_service_filters params);
      Csearch_endpoints
        (endpoint_filters sid (dict_get params "interface" PNone));
      Cdelete_endpoint eid],
     match delete_endpoint cloud eid with
     | Returns _ => Exited true
     | Raises msg => Failed msg
     end)
  /\ main cloud params true
     = ([Csearch_services (desired_service_filters params);
         Csearch_endpoints
           (endpoint_filters sid (dict_get params "interface" PNone))],
        Exited false).
Proof.
  intros Hst Hs Hid He Heid Hc. split.
  - rewrite (main_found cloud params false svc sid [cur] (Some cur) Hs Hid He)
      by (right; by exists cur).
    unfold main_tail. rewrite Hc.
    change (([] : list Call), Ret false) with (mret (M:=M) false).
    rewrite mbind_mret. unfold do_changes. rewrite Hst.
    cbn [getattr_opt]. rewrite (getattr_Some _ _ _ Heid), mbind_mret.
    rewrite bool_decide_eq_false_2 by done.
    by destruct (delete_endpoint cloud eid) as [[]|msg].
  - rewrite (main_found cloud params true svc sid [cur] (Some cur) Hs Hid He)
      by (right; by exists cur).
    unfold main_tail. rewrite Hc.
    change (([] : list Call), Ret false) with (mret (M:=M) false).
    rewrite mbind_mret. by rewrite bool_decide_eq_false_2 by done.
Qed.

Lemma delete_when_unchanged_witness :
  let cloud :=
    directory_cloud [keystone_service] [keystone_v3_endpoint] (Returns tt) in
  let params :=
    AnsibleModule_params argument_spec
      (<["state" := PStr "absent"]> example_v3_task) in
  mutations (main cloud params false) = [Cdelete_endpoint (PStr "e1")]
  /\ (main cloud params false).2 = Exited true
  /\ (main cloud params true).2 = Exited false.
Proof.
  intros cloud params.
  destruct (delete_when_unchanged cloud params keystone_service
              keystone_v3_endpoint (PStr "s1") (PStr "e1")) as [Hrun Hdry].
  - vm_compute. reflexivity.
  - vm_compute. reflexivity.
  - vm_compute. reflexivity.
  - vm_compute. reflexivity.
  - vm_compute. reflexivity.
  - vm_compute. reflexivity.
  - rewrite Hrun, Hdry.
    split; [vm_compute; reflexivity|]. split; vm_compute; reflexivity.
Defined.


(* --------------------------------------------------------------------- *)
(* Runs with state "absent"                                              *)
(* --------------------------------------------------------------------- *)

(** A run stops at one of the searches without any other call, or it
    makes both searches and goes on with the part of main from line 242
    on, for the service id and the endpoint that the searches gave. *)
Lemma main_early_or_tail cloud params check_mode :
  (mutations (main cloud params check_mode) = []
   /\ ((exists msg, (main cloud params check_mode).2 = Failed msg)
       \/ (main cloud params check_mode).2 = Uncaught (AttributeError "id")))
  \/ exists sid cur,
       main cloud params check_mode
       = try_except
           (Csearch_services (desired_service_filters params)
            :: Csearch_endpoints
                 (endpoint_filters sid (dict_get params "interface" PNone))
            :: (main_tail cloud params check_mode sid cur).1,
            (main_tail cloud params check_mode sid cur).2).
Proof.
  unfold main. rewrite main_body_unfold.
  destruct (resolve_service_result cloud params)
    as (r & -> & [[sid ->]|[->|[[msg ->]| ->]]]);
    try (left; split; [reflexivity|]; first [left; by eexists | by right]).
  rewrite mbind_Ret.
  destruct (get_endpoint_result cloud sid (dict_get params "interface" PNone))
    as (r & -> & [[cur ->]|[->|[msg ->]]]);
    try (left; split; [reflexivity|]; left; by eexists).
  right. exists sid, cur. by rewrite mbind_Ret.
Qed.

(** With state "absent" the part of main from line 242 on makes no call,
    or one delete call. *)
Lemma main_tail_absent cloud params check_mode sid cur :
  dict_get params "state" PNone = PStr "absent" ->
  main_tail cloud params check_mode sid cur = ([], Exit false)
  \/ (exists attr,
        main_tail cloud params check_mode sid cur
        = ([], Raise (AttributeError attr)))
  \/ (check_mode = false
      /\ exists eid r,
           main_tail cloud params check_mode sid cur
           = ([Cdelete_endpoint eid], r)
           /\ after_mutation r).
Proof.
  intros Hst. unfold main_tail. rewrite Hst, py_eq_refl, andb_true_r.
  destruct (bool_decide (cur = None)) eqn:Hcur; [by left|].
  unfold computed_changed.
  destruct (check_changes_result cur (dict_get params "url" PNone)
              (dict_get params "region" PNone) (effective_enabled params)
              (dict_get params "internal_url" PNone)
              (dict_get params "admin_url" PNone)
              (dict_get params "public_url" PNone)) as [[c ->]|[attr ->]].
  - change (([] : list Call), Ret c) with (mret (M:=M) c).
    rewrite mbind_mret. unfold check_mode_report, do_changes.
    rewrite Hst, py_eq_refl.
    destruct check_mode.
    + left. by destruct c.
    + destruct c.
      * change (py_eq (PStr "absent") (PStr "present")) with false.
        by left.
      * destruct cur as [cur|]; [|right; left; by eexists].
        cbn [getattr_opt]. unfold getattr.
        destruct (cur !! "id") as [eid|];
          rewrite ?mbind_mret, ?mbind_raise; [|right; left; by eexists].
        right. right. split; [done|].
        destruct (delete_endpoint cloud eid) as [[]|msg].
        -- do 2 eexists. split; [reflexivity|]. apply after_mutation_exit.
        -- do 2 eexists. split; [reflexivity|]. apply after_mutation_raise.
  - right. left. by eexists.
Qed.

(** X8. With state "absent" a run never creates or updates: its only
    possible change is one delete_endpoint call, whatever the options,
    the session's replies and the mode. *)
Theorem absent_only_deletes (cloud : Cloud) (params : Dict) (check_mode : bool) :
  dict_get params "state" PNone = PStr "absent" ->
  mutations (main cloud params check_mode) = []
  \/ exists eid,
       mutations (main cloud params check_mode) = [Cdelete_endpoint eid].
Proof.
  intros Hst.
  destruct (main_early_or_tail cloud params check_mode)
    as [[Hm _]|(sid & cur & ->)]; [by left|].
  unfold mutations. rewrite try_except_trace. cbn [fst].
  destruct (main_tail_absent cloud params check_mode sid cur Hst)
    as [-> | [[attr ->] | (_ & eid & r & -> & _)]]; [by left|by left|].
  right. by exists eid.
Qed.

Lemma absent_only_deletes_witness :
  let run :=
    main (directory_cloud [keystone_service] [keystone_v2_endpoint] (Returns tt))
      (AnsibleModule_params argument_spec
         (<["state" := PStr "absent"]> example_v2_task))
      false in
  mutations run = [] \/ exists eid, mutations run = [Cdelete_endpoint eid].
Proof.
  apply absent_only_deletes. vm_compute. reflexivity.
Defined.


(** X9. In check mode a run with state "absent" never reports a change:
    when it ends with exit_json, changed is False, also when the same run
    outside check mode deletes the endpoint and reports True. *)
Theorem check_mode_absent_reports_no_change (cloud : Cloud) (params : Dict)
    (c : bool) :
  dict_get params "state" PNone = PStr "absent" ->
  (main cloud params true).2 = Exited c ->
  c = false.
Proof.
  intros Hst.
  destruct (main_early_or_tail cloud params true)
    as [[_ [[msg ->]| ->]]|(sid & cur & ->)]; try discriminate.
  destruct (main_tail_absent cloud params true sid cur Hst)
    as [-> | [[attr ->] | (Hcm & _)]]; cbn [try_except snd];
    try discriminate.
  by intros [= <-].
Qed.

Lemma check_mode_absent_reports_no_change_witness :
  let cloud :=
    directory_cloud [keystone_service] [keystone_v3_endpoint] (Returns tt) in
  let params :=
    AnsibleModule_params argument_spec
      (<["state" := PStr "absent"]> example_v3_task) in
  (main cloud params true).2 = Exited false
  /\ (main cloud params false).2 = Exited true
  /\ false = false.
Proof.
  intros cloud params.
  split; [vm_compute; reflexivity|]. split; [vm_compute; reflexivity|].
  apply (check_mode_absent_reports_no_change cloud params false).
  - vm_compute. reflexivity.
  - vm_compute. reflexivity.
Defined.


(* --------------------------------------------------------------------- *)
(* The comparison in closed form                                         *)
(* --------------------------------------------------------------------- *)

Lemma check_changes_v2 (cur : Dict) (url region : PyVal) (enabled : bool)
    (internal_url admin_url public_url : PyVal) :
  truthy url = false ->
  check_changes (Some cur) url region enabled internal_url admin_url public_url
  = ([], Ret (attr_differs cur "region" region
              || attr_differs cur "internalurl" internal_url
              || attr_differs cur "adminurl" admin_url
              || attr_differs cur "publicurl" public_url)).
Proof.
  intros Hu. unfold check_changes. rewrite Hu, mbind_mret.
  by destruct (attr_differs cur "region" region),
    (attr_differs cur "internalurl" internal_url),
    (attr_differs cur "adminurl" admin_url),
    (attr_differs cur "publicurl" public_url).
Qed.

Lemma check_changes_v3 (cur : Dict) (url region : PyVal) (enabled : bool)
    (internal_url admin_url public_url e u : PyVal) :
  truthy url = true ->
  cur !! "enabled" = Some e ->
  cur !! "url" = Some u ->
  check_changes (Some cur) url region enabled internal_url admin_url public_url
  = ([], Ret (py_ne e (PBool enabled)
              || attr_differs cur "region" region
              || py_ne u url)).
Proof.
  intros Hu He Hcu. unfold check_changes.
  rewrite Hu, (getattr_Some _ _ _ He), (getattr_Some _ _ _ Hcu).
  destruct (py_ne e (PBool enabled)) eqn:E1,
    (attr_differs cur "region" region) eqn:E2, (py_ne u url) eqn:E3;
    repeat first
      [ rewrite mbind_mret | rewrite E1 | rewrite E2 | rewrite E3
      | progress cbv beta iota zeta ];
    reflexivity.
Qed.

(** X10. The comparison under the v2 schema (url not set): it never
    raises, and changed is True exactly when the region or one of the
    three legacy URLs differs.  The enabled flag is not compared, and the
    enabled and url attributes of the endpoint are not read. *)
Theorem v2_comparison (cur params : Dict) :
  truthy (dict_get params "url" PNone) = false ->
  computed_changed (Some cur) params
  = ([], Ret (attr_differs cur "region" (dict_get params "region" PNone)
              || attr_differs cur "internalurl"
                   (dict_get params "internal_url" PNone)
              || attr_differs cur "adminurl" (dict_get params "admin_url" PNone)
              || attr_differs cur "publicurl"
                   (dict_get params "public_url" PNone)))
  /\ forall params' : Dict,
       (forall k, k <> "enabled" -> params' !! k = params !! k) ->
       computed_changed (Some cur) params' = computed_changed (Some cur) params.
Proof.
  intros Hu. split.
  - unfold computed_changed. by apply check_changes_v2.
  - intros params' Hsame. unfold computed_changed.
    assert (Hget : forall k d, k <> "enabled" ->
                     dict_get params' k d = dict_get params k d).
    { intros k d Hk. unfold dict_get. by rewrite Hsame. }
    rewrite !(Hget "url"), !(Hget "region"), !(Hget "internal_url"),
      !(Hget "admin_url"), !(Hget "public_url") by done.
    by rewrite !check_changes_v2.
Qed.

Lemma v2_comparison_witness :
  computed_changed (Some keystone_v2_endpoint)
    (AnsibleModule_params argument_spec example_v2_task)
  = ([], Ret true)
  /\ computed_changed (Some keystone_v2_endpoint)
       (AnsibleModule_params argument_spec
          (<["admin_url" := PStr "http://old:35357/v2.0"]> example_v2_task))
     = ([], Ret false).
Proof.
  split.
  - refine (eq_trans
              (proj1 (v2_comparison keystone_v2_endpoint
                        (AnsibleModule_params argument_spec example_v2_task) _))
              _).
    + vm_compute. reflexivity.
    + vm_compute. reflexivity.
  - refine (eq_trans
              (proj1 (v2_comparison keystone_v2_endpoint
                        (AnsibleModule_params argument_spec
                           (<["admin_url" := PStr "http://old:35357/v2.0"]>
                              example_v2_task)) _))
              _).
    + vm_compute. reflexivity.
    + vm_compute. reflexivity.
Defined.


(** X11. The comparison under the v3 schema (url set), for an endpoint
    that has the enabled and url attributes: changed is True exactly when
    the endpoint's enabled is not the flag, or its region differs, or its
    url is not the desired url.  The three legacy URLs are not compared
    and the legacy attributes of the endpoint are not read. *)
Theorem v3_comparison (cur params : Dict) (e u : PyVal) :
  truthy (dict_get params "url" PNone) = true ->
  cur !! "enabled" = Some e ->
  cur !! "url" = Some u ->
  computed_changed (Some cur) params
  = ([], Ret (py_ne e (PBool (effective_enabled params))
              || attr_differs cur "region" (dict_get params "region" PNone)
              || py_ne u (dict_get params "url" PNone))).
Proof.
  intros Hu He Hcu. unfold computed_changed. by apply check_changes_v3.
Qed.

Lemma v3_comparison_witness :
  computed_changed (Some keystone_v3_endpoint)
    (AnsibleModule_params argument_spec
       (<["url" := PStr "http://other:5000/v3"]> example_v3_task))
  = ([], Ret true).
Proof.
  refine (eq_trans
            (v3_comparison keystone_v3_endpoint
               (AnsibleModule_params argument_spec
                  (<["url" := PStr "http://other:5000/v3"]> example_v3_task))
               (PBool true) (PStr "http://server:5000/v3") _ _ _)
            _).
  - vm_compute. reflexivity.
  - vm_compute. reflexivity.
  - vm_compute. reflexivity.
  - vm_compute. reflexivity.
Defined.


(** X12. A task in the v3 form (url set) against an endpoint object that
    lacks the enabled attribute, or has it and lacks url: after the two
    searches the run ends with an uncaught AttributeError for that
    attribute, in check mode or not, and no create, update or delete call
    is made. *)
Theorem v3_task_on_endpoint_without_attribute (cloud : Cloud) (params : Dict)
    (check_mode : bool) (svc cur : Dict) (sid : PyVal) (attr : string) :
  truthy (dict_get params "url" PNone) = true ->
  search_services cloud (desired_service_filters params) = Returns [svc] ->
  svc !! "id" = Some sid ->
  search_endpoints cloud
    (endpoint_filters sid (dict_get params "interface" PNone))
  = Returns [cur] ->
  (cur !! "enabled" = None /\ attr = "enabled")
  \/ (is_Some (cur !! "enabled") /\ cur !! "url" = None /\ attr = "url") ->
  main cloud params check_mode
  = ([Csearch_services (desired_service_filters params);
      Csearch_endpoints
        (endpoint_filters sid (dict_get params "interface" PNone))],
     Uncaught (AttributeError attr)).
Proof.
  intros Hu Hs Hid He Hattr.
  rewrite (main_found cloud params check_mode svc sid [cur] (Some cur) Hs Hid He)
    by (right; by exists cur).
  assert (Hc : computed_changed (Some cur) params
               = ([], Raise (AttributeError attr))).
  { unfold computed_changed, check_changes. rewrite Hu.
    destruct Hattr as [[Hen ->]|([e Hen] & Hcu & ->)].
    - by rewrite (getattr_None _ _ Hen).
    - rewrite (getattr_Some _ _ _ Hen), (getattr_None _ _ Hcu).
      rewrite mbind_mret.
      by destruct (py_ne e (PBool (effective_enabled params)));
        rewrite mbind_mret. }
  unfold main_tail. rewrite Hc.
  by destruct (py_eq (dict_get params "state" PNone) (PStr "absent")).
Qed.

Lemma v3_task_on_endpoint_without_attribute_witness :
  let cloud :=
    directory_cloud [keystone_service]
      [<["interface" := PStr "internal"]> keystone_v2_endpoint] (Returns tt) in
  let params := AnsibleModule_params argument_spec example_v3_task in
  main cloud params false
  = ([Csearch_services (desired_service_filters params);
      Csearch_endpoints (endpoint_filters (PStr "s1") (PStr "internal"))],
     Uncaught (AttributeError "enabled")).
Proof.
  intros cloud params.
  refine (v3_task_on_endpoint_without_attribute cloud params false
            keystone_service
            (<["interface" := PStr "internal"]> keystone_v2_endpoint)
            (PStr "s1") "enabled" _ _ _ _ _).
  - vm_compute. reflexivity.
  - vm_compute. reflexivity.
  - vm_compute. reflexivity.
  - vm_compute. reflexivity.
  - left. split; [vm_compute; reflexivity|reflexivity].
Defined.


(* --------------------------------------------------------------------- *)
(* The enabled flag                                                      *)
(* --------------------------------------------------------------------- *)

(** X13. The flag of line 225 is True exactly when module.params holds
    the string "True" for enabled.  For a task that supplies enabled this
    means: the flag is True for the boolean True and for the string
    "True", and False for every other value, such as "true", "yes", the
    boolean False or None. *)
Theorem enabled_flag_exact (params supplied : Dict) (v : PyVal) :
  (effective_enabled params = true <-> params !! "enabled" = Some (PStr "True"))
  /\ (supplied !! "enabled" = Some v ->
      (effective_enabled (AnsibleModule_params argument_spec supplied) = true
       <-> v = PBool true \/ v = PStr "True")).
Proof.
  split.
  - unfold effective_enabled, dict_get. rewrite py_eq_true.
    destruct (params !! "enabled") as [w|]; split; congruence.
  - intros Hv. unfold effective_enabled, dict_get.
    rewrite AnsibleModule_params_enabled, Hv, py_eq_true.
    destruct v as [|[]|s]; cbn [check_type_str py_str]; split; intros H;
      first
        [ discriminate H
        | by left
        | reflexivity
        | injection H as <-; by right
        | destruct H as [H|H]; first [discriminate H | by rewrite H] ].
Qed.

Lemma enabled_flag_exact_witness :
  effective_enabled
    (AnsibleModule_params argument_spec
       (<["enabled" := PStr "yes"]> example_v3_task)) = true
  <-> PStr "yes" = PBool true \/ PStr "yes" = PStr "True".
Proof.
  refine (proj2 (enabled_flag_exact ∅ _ (PStr "yes")) _).
  vm_compute. reflexivity.
Defined.


(** X14. A difference in enabled alone, under the v3 schema: when url is
    set, state is "present" and the endpoint found has another enabled
    value than the flag, a run outside check mode makes exactly one
    update_endpoint call and reports changed=True; the keywords of that
    call do not include enabled, so the call does not carry the value
    that differs. *)
Theorem enabled_difference_is_not_sent (cloud : Cloud) (params : Dict)
    (svc cur : Dict) (sid eid e u : PyVal) :
  truthy (dict_get params "url" PNone) = true ->
  dict_get params "state" PNone = PStr "present" ->
  search_services cloud (desired_service_filters params) = Returns [svc] ->
  svc !! "id" = Some sid ->
  search_endpoints cloud
    (endpoint_filters sid (dict_get params "interface" PNone))
  = Returns [cur] ->
  cur !! "id" = Some eid ->
  cur !! "enabled" = Some e ->
  e <> PBool (effective_enabled params) ->
  cur !! "url" = Some u ->
  main cloud params false
  = ([Csearch_services (desired_service_filters params);
      Csearch_endpoints
        (endpoint_filters sid (dict_get params "interface" PNone));
      Cupdate_endpoint eid (desired_update_kwargs params)],
     match update_endpoint cloud eid (desired_update_kwargs params) with
     | Returns _ => Exited true
     | Raises msg => Failed msg
     end)
  /\ desired_update_kwargs params !! "enabled" = None.
Proof.
  intros Hu Hst Hs Hid He Heid Hen Hne Hcu. split.
  - rewrite (main_found cloud params false svc sid [cur] (Some cur) Hs Hid He)
      by (right; by exists cur).
    assert (Hc : computed_changed (Some cur) params = ([], Ret true)).
    { unfold computed_changed.
      rewrite (check_changes_v3 cur _ _ _ _ _ _ e u Hu Hen Hcu).
      apply py_ne_true in Hne. by rewrite Hne. }
    rewrite (main_tail_changed_present _ _ _ _ Hst Hc).
    rewrite Hu, (getattr_Some _ _ _ Heid), mbind_mret.
    by destruct (update_endpoint cloud eid _) as [[]|msg].
  - unfold desired_update_kwargs, update_kwargs. by simplify_map_eq.
Qed.

Lemma enabled_difference_is_not_sent_witness :
  let params :=
    AnsibleModule_params argument_spec
      (<["enabled" := PBool false]> example_v3_task) in
  mutations
    (main (directory_cloud [keystone_service] [keystone_v3_endpoint] (Returns tt))
       params false)
  = [Cupdate_endpoint (PStr "e1") (desired_update_kwargs params)]
  /\ desired_update_kwargs params !! "enabled" = None.
Proof.
  intros params.
  destruct (enabled_difference_is_not_sent
              (directory_cloud [keystone_service] [keystone_v3_endpoint] (Returns tt))
              params keystone_service keystone_v3_endpoint
              (PStr "s1") (PStr "e1") (PBool true)
              (PStr "http://server:5000/v3")) as [Hrun Hkw].
  - vm_compute. reflexivity.
  - vm_compute. reflexivity.
  - vm_compute. reflexivity.
  - vm_compute. reflexivity.
  - vm_compute. reflexivity.
  - vm_compute. reflexivity.
  - vm_compute. reflexivity.
  - vm_compute. discriminate.
  - vm_compute. reflexivity.
  - split; [by rewrite Hrun|exact Hkw].
Defined.


(* --------------------------------------------------------------------- *)
(* Runs with state "present"                                             *)
(* --------------------------------------------------------------------- *)

(** X15. Nothing to do: with state "present" and one endpoint found that
    the comparison finds unchanged, the run makes no call after the two
    searches and reports changed=False, in check mode or not. *)
Theorem unchanged_present_is_noop (cloud : Cloud) (params : Dict)
    (check_mode : bool) (svc cur : Dict) (sid : PyVal) :
  dict_get params "state" PNone = PStr "present" ->
  search_services cloud (desired_service_filters params) = Returns [svc] ->
  svc !! "id" = Some sid ->
  search_endpoints cloud
    (endpoint_filters sid (dict_get params "interface" PNone))
  = Returns [cur] ->
  computed_changed (Some cur) params = ([], Ret false) ->
  main cloud params check_mode
  = ([Csearch_services (desired_service_filters params);
      Csearch_endpoints
        (endpoint_filters sid (dict_get params "interface" PNone))],
     Exited false).
Proof.
  intros Hst Hs Hid He Hc.
  rewrite (main_found cloud params check_mode svc sid [cur] (Some cur) Hs Hid He)
    by (right; by exists cur).
  by rewrite (main_tail_unchanged_present _ _ _ _ _ Hst Hc).
Qed.

Lemma unchanged_present_is_noop_witness :
  let cloud :=
    directory_cloud [keystone_service] [keystone_v2_endpoint] (Returns tt) in
  let params :=
    AnsibleModule_params argument_spec
      (<["admin_url" := PStr "http://old:35357/v2.0"]> example_v2_task) in
  main cloud params false
  = ([Csearch_services (desired_service_filters params);
      Csearch_endpoints (endpoint_filters (PStr "s1") PNone)],
     Exited false).
Proof.
  intros cloud params.
  refine (unchanged_present_is_noop cloud params false keystone_service
            keystone_v2_endpoint (PStr "s1") _ _ _ _ _).
  - vm_compute. reflexivity.
  - vm_compute. reflexivity.
  - vm_compute. reflexivity.
  - vm_compute. reflexivity.
  - vm_compute. reflexivity.
Defined.


(** The outcome of the part of main from line 242 on is the same in
    check mode and outside it, when state is "present", the endpoint has
    an id and the mutation calls return. *)
Lemma main_tail_check_mode_agrees cloud params sid cur :
  dict_get params "state" PNone = PStr "present" ->
  (forall c0, cur = Some c0 -> is_Some (c0 !! "id")) ->
  (forall s k, create_endpoint cloud s k = Returns tt) ->
  (forall i k, update_endpoint cloud i k = Returns tt) ->
  (forall i, delete_endpoint cloud i = Returns tt) ->
  (main_tail cloud params true sid cur).2
  = (main_tail cloud params false sid cur).2.
Proof.
  intros Hst Hid Hcreate Hupdate Hdelete. unfold main_tail.
  rewrite Hst.
  change (py_eq (PStr "present") (PStr "absent")) with false.
  rewrite andb_false_r. unfold computed_changed.
  destruct (check_changes_result cur (dict_get params "url" PNone)
              (dict_get params "region" PNone) (effective_enabled params)
              (dict_get params "internal_url" PNone)
              (dict_get params "admin_url" PNone)
              (dict_get params "public_url" PNone)) as [[c ->]|[attr ->]];
    [|reflexivity].
  change (([] : list Call), Ret c) with (mret (M:=M) c).
  rewrite !mbind_mret. unfold check_mode_report, do_changes.
  rewrite Hst, py_eq_refl.
  change (py_eq (PStr "present") (PStr "absent")) with false.
  rewrite andb_false_r.
  destruct c; [|reflexivity].
  destruct cur as [c0|].
  - destruct (Hid c0 eq_refl) as [eid Heid].
    rewrite (getattr_Some _ _ _ Heid), !mbind_mret.
    rewrite Hupdate, Hdelete, !mbind_call_returns, Hcreate.
    by destruct (truthy _).
  - by rewrite Hcreate.
Qed.

(** X16. Check mode predicts the run when state is "present": if the
    endpoints that the search returns carry an id and the create, update
    and delete calls return, a run in check mode ends exactly as the run
    outside check mode does, with the same changed or the same failure. *)
Theorem check_mode_agrees_when_present (cloud : Cloud) (params : Dict) :
  dict_get params "state" PNone = PStr "present" ->
  (forall sid l,
     search_endpoints cloud
       (endpoint_filters sid (dict_get params "interface" PNone)) = Returns l ->
     Forall (fun o : Dict => is_Some (o !! "id")) l) ->
  (forall s k, create_endpoint cloud s k = Returns tt) ->
  (forall i k, update_endpoint cloud i k = Returns tt) ->
  (forall i, delete_endpoint cloud i = Returns tt) ->
  (main cloud params true).2 = (main cloud params false).2.
Proof.
  intros Hst Hep Hcreate Hupdate Hdelete.
  unfold main. rewrite !main_body_unfold.
  destruct (resolve_service_result cloud params)
    as (r & -> & [[sid ->]|[->|[[msg ->]| ->]]]); try reflexivity.
  rewrite !mbind_Ret.
  destruct (search_endpoints cloud
              (endpoint_filters sid (dict_get params "interface" PNone)))
    as [l|msg] eqn:He.
  - rewrite (get_endpoint_reply _ _ _ _ He).
    specialize (Hep sid l He).
    destruct l as [|e [|e' l]]; [| |reflexivity]; rewrite !mbind_Ret.
    + pose proof (main_tail_check_mode_agrees cloud params sid None Hst)
        as Hagree.
      destruct (main_tail cloud params true sid None) as [t1 r1],
        (main_tail cloud params false sid None) as [t2 r2].
      cbn [fst snd] in *. rewrite Hagree; [|done|done|done|done].
      by destruct r2 as [[]| | |[]].
    + pose proof (main_tail_check_mode_agrees cloud params sid (Some e) Hst)
        as Hagree.
      destruct (main_tail cloud params true sid (Some e)) as [t1 r1],
        (main_tail cloud params false sid (Some e)) as [t2 r2].
      cbn [fst snd] in *. rewrite Hagree; [| |done|done|done].
      * by destruct r2 as [[]| | |[]].
      * intros c0 [= <-]. by apply Forall_cons in Hep as [? _].
  - by rewrite (get_endpoint_raises _ _ _ _ He).
Qed.

Lemma check_mode_agrees_when_present_witness :
  let cloud :=
    {| search_services := fun _ => Returns [keystone_service];
       search_endpoints := fun _ => Returns [keystone_v2_endpoint];
       create_endpoint := fun _ _ => Returns tt;
       update_endpoint := fun _ _ => Returns tt;
       delete_endpoint := fun _ => Returns tt |} in
  let params := AnsibleModule_params argument_spec example_v2_task in
  (main cloud params true).2 = (main cloud params false).2.
Proof.
  intros cloud params.
  apply (check_mode_agrees_when_present cloud params).
  - vm_compute. reflexivity.
  - intros sid l [= <-]. apply Forall_cons. split; [|apply Forall_nil_2].
    exists (PStr "e2"). vm_compute. reflexivity.
  - reflexivity.
  - reflexivity.
  - reflexivity.
Defined.




